(** * Incremental static-site build of coltrane: [manage.py build]

    Shallow embedding of [coltrane/management/commands/build.py]
    ([Command._output_markdown_file], [Command.handle]) and of the
    [threadpool] decorator of [coltrane/utils.py].

    The Python command object mutates [self] and the file system in place
    and lets exceptions escape from the middle of a method, keeping every
    mutation done before the raise.  We model this with a state monad
    whose result is either a value or a raised exception, and whose state
    is the command object together with the observable world (generated
    files, manifest file, spinner output). *)

From Stdlib Require Import ZArith Ascii String List Permutation.
From stdpp Require Import base gmap strings list pretty.

Open Scope string_scope.

(* ------------------------------------------------------------------ *)
(** ** Data model *)

Definition path := string.

(** A Python exception: class name and message. *)
Record Exn := { exn_class : string; exn_message : string }.

(** Result of a Python computation: a value, or a raised exception. *)
Inductive pyres (A : Type) : Type :=
| Ok (a : A)
| Raise (e : Exn).
Arguments Ok {A} a.
Arguments Raise {A} e.

(** [coltrane.manifest.ManifestItem]: the fingerprint of a content file. *)
Record ManifestItem := { mtime : Z; md5 : string }.

(** The content files as the build sees them: modification time and md5
    of every file, and the result of [ManifestItem.render_html] (which
    may raise). *)
Record FileSystem := {
  fs_mtime : path -> Z;
  fs_md5 : path -> string;
  fs_render : path -> pyres string }.

(** The persisted manifest file ([output.json]). *)
Record ManifestFile := {
  mf_data : gmap path ManifestItem;
  mf_static : string }.

(** Modelled from the spec: [coltrane.manifest.Manifest] (not in the
    sources).  A mapping path -> fingerprint loaded once per build, a dirty
    flag set by [add], and the static-asset summary recorded in the manifest
    file next to the one of the current [collectstatic] run. *)
Record Manifest := {
  m_data : gmap path ManifestItem;
  m_static_recorded : option string;
  m_static_current : string;
  is_dirty : bool }.

(** [output_result_counts]. *)
Record Counts := {
  create_count : nat;
  update_count : nat;
  skip_count : nat }.

(** The attributes of [Command] used by the build. *)
Record Command := {
  is_force : bool;
  threads_count : Z;
  manifest : option Manifest;
  output_result_counts : Counts }.

(** Lines shown by the [Halo] spinner. *)
Inductive SpinnerLine :=
| SpinSucceed (s : string)
| SpinFail (s : string).

(** Observable effects of a build: generated HTML files, the calls made
    to [render_html], the manifest file and how often it was written, and
    the spinner output. *)
Record World := {
  outputs : gmap path string;
  render_calls : list path;
  manifest_file : option ManifestFile;
  manifest_writes : nat;
  spinner_log : list SpinnerLine }.

Record St := { cmd : Command; world : World }.

(* ------------------------------------------------------------------ *)
(** ** Setters *)

Definition set_is_force (b : bool) (c : Command) : Command :=
  {| is_force := b; threads_count := threads_count c; manifest := manifest c;
     output_result_counts := output_result_counts c |}.
Definition set_threads_count (n : Z) (c : Command) : Command :=
  {| is_force := is_force c; threads_count := n; manifest := manifest c;
     output_result_counts := output_result_counts c |}.
Definition set_manifest (m : option Manifest) (c : Command) : Command :=
  {| is_force := is_force c; threads_count := threads_count c; manifest := m;
     output_result_counts := output_result_counts c |}.
Definition set_counts (n : Counts) (c : Command) : Command :=
  {| is_force := is_force c; threads_count := threads_count c;
     manifest := manifest c; output_result_counts := n |}.

Definition set_outputs (o : gmap path string) (w : World) : World :=
  {| outputs := o; render_calls := render_calls w; manifest_file := manifest_file w;
     manifest_writes := manifest_writes w; spinner_log := spinner_log w |}.
Definition set_render_calls (r : list path) (w : World) : World :=
  {| outputs := outputs w; render_calls := r; manifest_file := manifest_file w;
     manifest_writes := manifest_writes w; spinner_log := spinner_log w |}.
Definition set_manifest_file (f : option ManifestFile) (n : nat) (w : World) : World :=
  {| outputs := outputs w; render_calls := render_calls w; manifest_file := f;
     manifest_writes := n; spinner_log := spinner_log w |}.
Definition set_spinner_log (l : list SpinnerLine) (w : World) : World :=
  {| outputs := outputs w; render_calls := render_calls w; manifest_file := manifest_file w;
     manifest_writes := manifest_writes w; spinner_log := l |}.

Definition on_cmd (f : Command -> Command) (s : St) : St :=
  {| cmd := f (cmd s); world := world s |}.
Definition on_world (f : World -> World) (s : St) : St :=
  {| cmd := cmd s; world := f (world s) |}.

(* ------------------------------------------------------------------ *)
(** ** The state and exception monad *)

Definition M (A : Type) : Type := St -> St * pyres A.

Global Instance M_ret : MRet M := fun A a s => (s, Ok a).
Global Instance M_bind : MBind M := fun A B k m s =>
  match m s with
  | (s', Ok a) => k a s'
  | (s', Raise e) => (s', Raise e)
  end.

Definition raise {A} (e : Exn) : M A := fun s => (s, Raise e).
Definition gets {A} (f : St -> A) : M A := fun s => (s, Ok (f s)).
Definition modify (f : St -> St) : M unit := fun s => (f s, Ok tt).

(** [future.exception()] on a finished future: the exception the task
    raised, if any; the task's mutations stay done either way. *)
Definition exception_of (m : M unit) : M (option Exn) := fun s =>
  match m s with
  | (s', Ok _) => (s', Ok None)
  | (s', Raise e) => (s', Ok (Some e))
  end.

(* ------------------------------------------------------------------ *)
(** ** The manifest operations and the per-file task *)

Section Build.

Variable fs : FileSystem.

(** [ManifestItem.create(markdown_file)]. *)
Definition ManifestItem_create (p : path) : ManifestItem :=
  {| mtime := fs_mtime fs p; md5 := fs_md5 fs p |}.

(** Modelled from the spec: [Manifest.get], a point lookup. *)
Definition Manifest_get (p : path) (m : Manifest) : option ManifestItem :=
  m_data m !! p.

(** Modelled from the spec: [Manifest.add], fresh fingerprint, upsert,
    dirty flag set. *)
Definition Manifest_add (p : path) (m : Manifest) : Manifest :=
  {| m_data := <[p := ManifestItem_create p]> (m_data m);
     m_static_recorded := m_static_recorded m;
     m_static_current := m_static_current m;
     is_dirty := true |}.

Definition AssertionError (msg : string) : Exn :=
  {| exn_class := "AssertionError"; exn_message := msg |}.

(** [assert self.manifest, "Manifest must be loaded first"]. *)
Definition get_manifest : M Manifest := fun s =>
  match manifest (cmd s) with
  | Some m => (s, Ok m)
  | None => (s, Raise (AssertionError "Manifest must be loaded first"))
  end.

(** [self.manifest.add(markdown_file)]. *)
Definition manifest_add (p : path) : M unit :=
  modify (on_cmd (fun c => set_manifest (option_map (Manifest_add p) (manifest c)) c)).

Definition incr_create : M unit :=
  modify (on_cmd (fun c => let n := output_result_counts c in
    set_counts {| create_count := S (create_count n); update_count := update_count n;
                  skip_count := skip_count n |} c)).
Definition incr_update : M unit :=
  modify (on_cmd (fun c => let n := output_result_counts c in
    set_counts {| create_count := create_count n; update_count := S (update_count n);
                  skip_count := skip_count n |} c)).
Definition incr_skip : M unit :=
  modify (on_cmd (fun c => let n := output_result_counts c in
    set_counts {| create_count := create_count n; update_count := update_count n;
                  skip_count := S (skip_count n) |} c)).

(** [item.render_html()]: the call is recorded, then the content is
    rendered (or the renderer raises). *)
Definition render_html (p : path) : M string := fun s =>
  (on_world (fun w => set_render_calls (render_calls w ++ [p]) w) s, fs_render fs p).

(** [item.generated_file_path.write_text(rendered_html)]. *)
Definition write_text (p : path) (html : string) : M unit :=
  modify (on_world (fun w => set_outputs (<[p := html]> (outputs w)) w)).

(** [Command._output_markdown_file]. *)
Definition output_markdown_file (markdown_file : path) : M unit :=
  m ← get_manifest;
  let item := ManifestItem_create markdown_file in
  let existing_item := Manifest_get markdown_file m in
  force ← gets (fun s => is_force (cmd s));
  is_skipped ←
    match existing_item with
    | Some ex =>
        if negb force then
          if Z.eqb (mtime item) (mtime ex) then
            incr_skip;; mret true
          else if String.eqb (md5 item) (md5 ex) then
            manifest_add markdown_file;; incr_skip;; mret true
          else mret false
        else mret false
    | None => mret false
    end;
  if negb is_skipped then
    (match existing_item with
     | Some _ => incr_update
     | None => incr_create
     end);;
    rendered_html ← render_html markdown_file;
    write_text markdown_file rendered_html;;
    manifest_add markdown_file
  else mret tt.

End Build.

(* ------------------------------------------------------------------ *)
(** ** [int(...)] on a string *)

(** Python's [int(s)] for base 10 (CPython 3.11), on strings of code
    points below 256: surrounding whitespace stripped (in that range
    [str.isspace] holds for 9-13, 32, 133 and 160), an optional sign, then
    decimal digits with single underscores allowed between two digits, at
    most 4300 digits ([sys.get_int_max_str_digits()]); anything else raises
    [ValueError] (here [None]). *)
Definition is_py_space (c : Ascii.ascii) : bool :=
  match Ascii.nat_of_ascii c with
  | 32 | 9 | 10 | 11 | 12 | 13 | 133 | 160 => true
  | _ => false
  end.

Fixpoint lstrip (s : string) : string :=
  match s with
  | String c r => if is_py_space c then lstrip r else s
  | EmptyString => EmptyString
  end.

Definition strip (s : string) : string :=
  string_of_list_ascii
    (rev (list_ascii_of_string (lstrip
      (string_of_list_ascii (rev (list_ascii_of_string (lstrip s))))))).

Definition digit_of (c : Ascii.ascii) : option Z :=
  let n := Z.of_nat (Ascii.nat_of_ascii c) in
  if (48 <=? n)%Z && (n <=? 57)%Z then Some (n - 48)%Z else None.

(** The digits after the first one: [after_us] when the previous character
    was an underscore; returns the value and the number of digits. *)
Fixpoint digits_value (s : string) (acc : Z) (ndigits : nat) (after_us : bool)
    : option (Z * nat) :=
  match s with
  | EmptyString => if after_us then None else Some (acc, ndigits)
  | String c r =>
      match digit_of c with
      | Some d => digits_value r (acc * 10 + d)%Z (S ndigits) false
      | None =>
          if Ascii.eqb c "_"%char && negb after_us
          then digits_value r acc ndigits true
          else None
      end
  end.

Definition unsigned_int (s : string) : option Z :=
  match s with
  | EmptyString => None
  | String c r =>
      match digit_of c with
      | Some d =>
          match digits_value r d 1 false with
          | Some (v, n) => if Nat.leb n 4300 then Some v else None
          | None => None
          end
      | None => None
      end
  end.

Definition py_int (s : string) : option Z :=
  match strip s with
  | String "-"%char r => option_map Z.opp (unsigned_int r)
  | String "+"%char r => unsigned_int r
  | t => unsigned_int t
  end.

(* ------------------------------------------------------------------ *)
(** ** [Command.handle] *)

(** What a build run sees of the outside: the content files, the list
    yielded by [get_content_paths()], [multiprocessing.cpu_count()] ([None]
    when it raises), the state of the collected static assets and the
    summary printed for [collectstatic]. *)
Record Env := {
  env_fs : FileSystem;
  env_files : list path;
  env_cpu_count : option Z;
  env_static_state : string;
  env_collectstatic_stdout : string }.

(** The parsed command-line options [--force] and [--threads]. *)
Record Options := {
  opt_force : bool;
  opt_threads : option string }.

(** Modelled from the spec: [Manifest(manifest_file=...)], a missing file
    gives the empty manifest. *)
Definition load_manifest (f : option ManifestFile) (static_now : string) : Manifest :=
  match f with
  | Some mf => {| m_data := mf_data mf; m_static_recorded := Some (mf_static mf);
                  m_static_current := static_now; is_dirty := false |}
  | None => {| m_data := ∅; m_static_recorded := None;
               m_static_current := static_now; is_dirty := false |}
  end.

(** Modelled from the spec: [Manifest.static_files_manifest_changed], the
    static-asset state differs from the one recorded in the manifest. *)
Definition static_files_manifest_changed (m : Manifest) : bool :=
  match m_static_recorded m with
  | Some r => negb (String.eqb r (m_static_current m))
  | None => true
  end.

(** Modelled from the spec: [Manifest.write_data()], the records and the
    current static-asset state are persisted. *)
Definition write_data (m : Manifest) : M unit :=
  modify (on_world (fun w =>
    set_manifest_file (Some {| mf_data := m_data m; mf_static := m_static_current m |})
      (S (manifest_writes w)) w)).

Definition spinner (l : SpinnerLine) : M unit :=
  modify (on_world (fun w => set_spinner_log (spinner_log w ++ [l]) w)).

Definition ValueError (msg : string) : Exn :=
  {| exn_class := "ValueError"; exn_message := msg |}.
Definition NameError (msg : string) : Exn :=
  {| exn_class := "NameError"; exn_message := msg |}.

(** Lines 159-163: the reset at the start of [handle]. *)
Definition reset (c : Command) : Command :=
  {| is_force := false; threads_count := threads_count c; manifest := None;
     output_result_counts := {| create_count := 0; update_count := 0; skip_count := 0 |} |}.

(** Lines 200-209: the thread count, with the conversion [int(...)] of
    line 202 as the argument [int_]. *)
Definition resolve_threads_with (int_ : string -> option Z)
    (threads : option string) (cpu : option Z) (prev : Z) : Z :=
  let from_cpu := match cpu with Some n => (n / 2 - 1)%Z | None => prev end in
  match threads with
  | Some s =>
      if String.eqb s "" then from_cpu
      else match int_ s with Some n => n | None => prev end
  | None => from_cpu
  end.

Definition resolve_threads : option string -> option Z -> Z -> Z :=
  resolve_threads_with py_int.

(** [ThreadPoolExecutor(max_workers=n)]. *)
Definition ThreadPoolExecutor (n : Z) : M unit :=
  if (n <=? 0)%Z then raise (ValueError "max_workers must be greater than 0")
  else mret tt.

Definition error_text (p : path) (e : Exn) : string :=
  "Rendering " ++ p ++ " failed. `" ++ exn_class e ++ ": " ++ exn_message e ++ "`".

(** Lines 219-225.  Each file is submitted to the pool and the loop blocks
    on [future.exception()] before submitting the next one, so the pool
    runs one task at a time, in discovery order (see [Pool] below).  The
    local [error_message] survives the loop, as Python variables do. *)
Fixpoint build_loop (fs : FileSystem) (files : list path) (errors : list string)
    (error_message : option string) : M (list string * option string) :=
  match files with
  | [] => mret (errors, error_message)
  | p :: rest =>
      error ← exception_of (output_markdown_file fs p);
      match error with
      | Some e =>
          let msg := error_text p e in
          build_loop fs rest (errors ++ [msg]) (Some msg)
      | None => build_loop fs rest errors error_message
      end
  end.

(** Lines 231-232: [for error in errors: spinner.fail(error_message)]. *)
Fixpoint report_errors (errors : list string) (error_message : option string) : M unit :=
  match errors with
  | [] => mret tt
  | _ :: rest =>
      match error_message with
      | Some m => spinner (SpinFail m);; report_errors rest error_message
      | None => raise (NameError "name 'error_message' is not defined")
      end
  end.

Definition result_msg (n : Counts) : string :=
  "Create " ++ pretty (create_count n) ++ " HTML files, " ++ pretty (skip_count n)
  ++ " unmodified, " ++ pretty (update_count n) ++ " updated".

(** [Command.handle] (output directory, stdout messages and timing are
    not observable in this model and left out). *)
Definition handle (env : Env) (opts : Options) : M unit :=
  modify (on_cmd reset);;
  m0 ← gets (fun s => load_manifest (manifest_file (world s)) (env_static_state env));
  modify (on_cmd (set_manifest (Some m0)));;
  spinner (SpinSucceed "Load manifest");;
  (if opt_force opts then modify (on_cmd (set_is_force true)) else mret tt);;
  spinner (SpinSucceed (env_collectstatic_stdout env));;
  force ← gets (fun s => is_force (cmd s));
  (if negb force && static_files_manifest_changed m0
   then modify (on_cmd (set_is_force true)) else mret tt);;
  prev ← gets (fun s => threads_count (cmd s));
  let n := resolve_threads (opt_threads opts) (env_cpu_count env) prev in
  modify (on_cmd (set_threads_count n));;
  ThreadPoolExecutor n;;
  '(errors, error_message) ← build_loop (env_fs env) (env_files env) [] None;
  counts ← gets (fun s => output_result_counts (cmd s));
  spinner (SpinSucceed (result_msg counts));;
  report_errors errors error_message;;
  m ← get_manifest;
  if is_dirty m then
    write_data m;; spinner (SpinSucceed "Update manifest")
  else mret tt.

(** Running [handle] from a state. *)
Definition run_handle (env : Env) (opts : Options) (s : St) : St * pyres unit :=
  handle env opts s.

(** One file of the loop: the task and what [future.exception()] returns. *)
Definition run_task (fs : FileSystem) (p : path) (s : St) : St * option Exn :=
  match output_markdown_file fs p s with
  | (s', Ok _) => (s', None)
  | (s', Raise e) => (s', Some e)
  end.

(** Lines 223-225: what the loop body does with that exception. *)
Definition after_error (p : path) (e : option Exn) (errors : list string)
    (error_message : option string) : list string * option string :=
  match e with
  | Some e => ((errors ++ [error_text p e])%list, Some (error_text p e))
  | None => (errors, error_message)
  end.

(* ------------------------------------------------------------------ *)
(** ** The executor, as a transition system *)

(** The loop of lines 219-225 run against a [ThreadPoolExecutor] with
    [max_workers] threads.  The orchestrator submits a task and blocks on
    its future; worker threads take tasks from the executor's queue (as
    long as fewer than [max_workers] are busy), run them and complete
    their futures.  Nothing forces the orchestrator to wait here except
    the future it blocks on. *)
Module Pool.

Inductive Phase :=
| Submitting
| Waiting (id : nat) (p : path)
| Exited.

Record Config := {
  phase : Phase;
  todo : list path;
  next_id : nat;
  queued : list (nat * path);
  running : list (nat * path);
  finished : list (nat * option Exn);
  errors : list string;
  error_message : option string;
  state : St }.

Section Executor.

Variable fs : FileSystem.
Variable max_workers : nat.

(** [future = executor.submit(self._output_markdown_file, path)], then the
    orchestrator blocks in [future.exception()]. *)
Definition submit (c : Config) (p : path) (rest : list path) : Config :=
  {| phase := Waiting (next_id c) p; todo := rest; next_id := S (next_id c);
     queued := queued c ++ [(next_id c, p)]; running := running c;
     finished := finished c; errors := errors c; error_message := error_message c;
     state := state c |}.

(** [get_content_paths()] is exhausted: the [with] block exits. *)
Definition exit_loop (c : Config) : Config :=
  {| phase := Exited; todo := todo c; next_id := next_id c; queued := queued c;
     running := running c; finished := finished c; errors := errors c;
     error_message := error_message c; state := state c |}.

(** A worker thread takes the first queued task. *)
Definition start (c : Config) (t : nat * path) (q : list (nat * path)) : Config :=
  {| phase := phase c; todo := todo c; next_id := next_id c; queued := q;
     running := running c ++ [t]; finished := finished c; errors := errors c;
     error_message := error_message c; state := state c |}.

(** A worker thread completes a running task and its future. *)
Definition finish (c : Config) (r1 r2 : list (nat * path)) (t : nat * path) : Config :=
  let '(s', e) := run_task fs (snd t) (state c) in
  {| phase := phase c; todo := todo c; next_id := next_id c; queued := queued c;
     running := r1 ++ r2; finished := finished c ++ [(fst t, e)];
     errors := errors c; error_message := error_message c; state := s' |}.

(** The awaited future is done: the orchestrator records its exception. *)
Definition resume (c : Config) (p : path) (f1 f2 : list (nat * option Exn))
    (e : option Exn) : Config :=
  let '(errs, em) := after_error p e (errors c) (error_message c) in
  {| phase := Submitting; todo := todo c; next_id := next_id c; queued := queued c;
     running := running c; finished := f1 ++ f2; errors := errs;
     error_message := em; state := state c |}.

Inductive step : Config -> Config -> Prop :=
| step_submit c p rest :
    phase c = Submitting -> todo c = p :: rest -> step c (submit c p rest)
| step_exit c :
    phase c = Submitting -> todo c = [] -> step c (exit_loop c)
| step_start c t q :
    queued c = t :: q -> length (running c) < max_workers -> step c (start c t q)
| step_finish c r1 r2 t :
    running c = (r1 ++ t :: r2)%list -> step c (finish c r1 r2 t)
| step_resume c id p f1 f2 e :
    phase c = Waiting id p -> finished c = (f1 ++ (id, e) :: f2)%list ->
    step c (resume c p f1 f2 e).

Definition init (files : list path) (s : St) : Config :=
  {| phase := Submitting; todo := files; next_id := 0; queued := []; running := [];
     finished := []; errors := []; error_message := None; state := s |}.

(** Tasks submitted whose future has not been consumed yet. *)
Definition in_flight (c : Config) : nat :=
  length (queued c) + length (running c) + length (finished c).

End Executor.
End Pool.


(* ------------------------------------------------------------------ *)
(** ** The change classifier as the specification describes it *)

Inductive Outcome := Create | Update | Skip.

Definition bump (o : Outcome) (n : Counts) : Counts :=
  match o with
  | Create => {| create_count := S (create_count n); update_count := update_count n;
                 skip_count := skip_count n |}
  | Update => {| create_count := create_count n; update_count := S (update_count n);
                 skip_count := skip_count n |}
  | Skip => {| create_count := create_count n; update_count := update_count n;
               skip_count := S (skip_count n) |}
  end.

(** The five-step decision procedure of the specification (section 4.3):
    the outcome, whether the file is rendered, and whether the manifest
    record is refreshed through [add] without rendering. *)
Definition classify (is_forced : bool) (existing_record : option ManifestItem)
    (current : ManifestItem) : Outcome * bool * bool :=
  if is_forced then
    (match existing_record with Some _ => Update | None => Create end, true, false)
  else
    match existing_record with
    | None => (Create, true, false)
    | Some r =>
        if Z.eqb (mtime current) (mtime r) then (Skip, false, false)
        else if String.eqb (md5 current) (md5 r) then (Skip, false, true)
        else (Update, true, false)
    end.

(** What processing one file does according to that procedure: the
    outcome is counted; a rendered file has its HTML written and its
    record added (a render that raises leaves the exception); a refreshed
    record is added; nothing else changes. *)
Definition procedure_effect (fs : FileSystem) (p : path) (m : Manifest) (s : St)
    : St * pyres unit :=
  let '(o, render, refresh) :=
    classify (is_force (cmd s)) (Manifest_get p m) (ManifestItem_create fs p) in
  let s1 := on_cmd (fun c => set_counts (bump o (output_result_counts c)) c) s in
  if render then
    let s2 := on_world (fun w => set_render_calls (render_calls w ++ [p]) w) s1 in
    match fs_render fs p with
    | Ok html =>
        (on_cmd (set_manifest (Some (Manifest_add fs p m)))
           (on_world (fun w => set_outputs (<[p := html]> (outputs w)) w) s2), Ok tt)
    | Raise e => (s2, Raise e)
    end
  else if refresh then (on_cmd (set_manifest (Some (Manifest_add fs p m))) s1, Ok tt)
  else (s1, Ok tt).

(** The same run over another discovery order. *)
Definition with_files (env : Env) (files : list path) : Env :=
  {| env_fs := env_fs env; env_files := files; env_cpu_count := env_cpu_count env;
     env_static_state := env_static_state env;
     env_collectstatic_stdout := env_collectstatic_stdout env |}.

(* ------------------------------------------------------------------ *)
(** ** Sample inputs *)

Definition sample_error : Exn :=
  {| exn_class := "TemplateSyntaxError"; exn_message := "bad tag" |}.

(** Three content files; rendering [b.md] raises. *)
Definition sample_fs : FileSystem :=
  {| fs_mtime := fun p => if String.eqb p "a.md" then 5%Z else 1%Z;
     fs_md5 := fun p => "md5-" ++ p;
     fs_render := fun p => if String.eqb p "b.md" then Raise sample_error
                           else Ok ("<p>" ++ p ++ "</p>") |}.

(** Every file renders. *)
Definition sample_fs_ok : FileSystem :=
  {| fs_mtime := fs_mtime sample_fs; fs_md5 := fs_md5 sample_fs;
     fs_render := fun p => Ok ("<p>" ++ p ++ "</p>") |}.

(** Every file fails to render. *)
Definition sample_fs_broken : FileSystem :=
  {| fs_mtime := fs_mtime sample_fs; fs_md5 := fs_md5 sample_fs;
     fs_render := fun p => Raise {| exn_class := "KeyError"; exn_message := p |} |}.

Definition zero_counts : Counts :=
  {| create_count := 0; update_count := 0; skip_count := 0 |}.

(** A manifest recording [a.md] with an older mtime and the same md5. *)
Definition sample_manifest : Manifest :=
  {| m_data := {[ "a.md" := {| mtime := 3; md5 := "md5-a.md" |} ]};
     m_static_recorded := Some "static-1"; m_static_current := "static-1";
     is_dirty := false |}.

Definition empty_world : World :=
  {| outputs := ∅; render_calls := []; manifest_file := None; manifest_writes := 0;
     spinner_log := [] |}.

(** A fresh [Command()]: the class attributes. *)
Definition fresh_command : Command :=
  {| is_force := false; threads_count := 2; manifest := None;
     output_result_counts := zero_counts |}.

Definition sample_state : St :=
  {| cmd := set_manifest (Some sample_manifest) fresh_command; world := empty_world |}.

Definition sample_env (fs : FileSystem) (files : list path) : Env :=
  {| env_fs := fs; env_files := files; env_cpu_count := Some 16%Z;
     env_static_state := "static-1"; env_collectstatic_stdout := "Copy 0 static files" |}.

Definition no_options : Options := {| opt_force := false; opt_threads := None |}.

(* ------------------------------------------------------------------ *)
(** ** [handle] in three parts *)

(** The state in which [handle] reaches the [ThreadPoolExecutor]. *)
Definition prelude_state (env : Env) (opts : Options) (s : St) : St :=
  let m0 := load_manifest (manifest_file (world s)) (env_static_state env) in
  {| cmd := {| is_force := opt_force opts || static_files_manifest_changed m0;
               threads_count := resolve_threads (opt_threads opts) (env_cpu_count env)
                                  (threads_count (cmd s));
               manifest := Some m0;
               output_result_counts := zero_counts |};
     world := set_spinner_log
                ((spinner_log (world s) ++ [SpinSucceed "Load manifest"])
                   ++ [SpinSucceed (env_collectstatic_stdout env)]) (world s) |}.

(** What [handle] does after the loop (lines 227-237). *)
Definition epilogue (errors : list string) (error_message : option string) : M unit :=
  counts ← gets (fun s => output_result_counts (cmd s));
  spinner (SpinSucceed (result_msg counts));;
  report_errors errors error_message;;
  m ← get_manifest;
  if is_dirty m then write_data m;; spinner (SpinSucceed "Update manifest")
  else mret tt.

(** The final counters, in-memory manifest and manifest file of a run. *)
Definition counts_and_manifest (r : St * pyres unit)
    : Counts * option Manifest * option ManifestFile :=
  (output_result_counts (cmd (fst r)), manifest (cmd (fst r)), manifest_file (world (fst r))).

(* ------------------------------------------------------------------ *)
(** ** What one file changes in the counters and the manifest *)

(** The part of the command object the build results are made of. *)
Definition core (s : St) : Counts * option Manifest * bool :=
  (output_result_counts (cmd s), manifest (cmd s), is_force (cmd s)).

Definition is_ok {A} (r : pyres A) : bool :=
  match r with Ok _ => true | Raise _ => false end.

(** One file's effect on [core]: the outcome is counted, and the record is
    added when the file is rendered successfully or refreshed. *)
Definition task_core (fs : FileSystem) (x : Counts * option Manifest * bool) (p : path)
    : Counts * option Manifest * bool :=
  let '(cnt, mo, f) := x in
  match mo with
  | None => x
  | Some m =>
      let '(o, render, refresh) :=
        classify f (Manifest_get p m) (ManifestItem_create fs p) in
      (bump o cnt,
       Some (if (if render then is_ok (fs_render fs p) else refresh)
             then Manifest_add fs p m else m),
       f)
  end.

(** A fresh command object with no output yet. *)
Definition fresh_state : St := {| cmd := fresh_command; world := empty_world |}.

(** The default thread count the specification describes: half of the
    hardware threads, minus one, floored at 1. *)
Definition claimed_default_threads (cpu : Z) : Z := Z.max 1 (cpu / 2 - 1).

(* ------------------------------------------------------------------ *)
(** ** [coltrane.utils.dict_merge] *)

Section DictMerge.

Context {L : Type} `{EqDecision L}.

(** A Python value as [dict_merge] sees it: a [dict] with string keys,
    kept in insertion order, or any other value, a leaf compared with [==]. *)
#[warnings="-register-all"]
Inductive pyobj :=
| PLeaf (v : L)
| PDict (d : list (string * pyobj)).

Definition dict := list (string * pyobj).

(** [d[k]] when [k in d]; [None] when the key is absent. *)
Fixpoint dict_lookup (k : string) (d : dict) : option pyobj :=
  match d with
  | [] => None
  | (k', v) :: r => if String.eqb k k' then Some v else dict_lookup k r
  end.

(** [d[k] = v]: an existing key keeps its position, a new key is appended. *)
Fixpoint dict_setitem (k : string) (v : pyobj) (d : dict) : dict :=
  match d with
  | [] => [(k, v)]
  | (k', v') :: r => if String.eqb k k' then (k', v) :: r else (k', v') :: dict_setitem k v r
  end.

(** [source[key] == destination[key]] once the two-dicts case is ruled out:
    leaves compare with [==], a leaf never equals a dict. *)
Definition py_eq (a b : pyobj) : bool :=
  match a, b with
  | PLeaf x, PLeaf y => bool_decide (x = y)
  | _, _ => false
  end.

(** [".".join(path)]. *)
Fixpoint join_dot (l : list string) : string :=
  match l with
  | [] => ""
  | [x] => x
  | x :: r => x ++ "." ++ join_dot r
  end.

(** [Exception("Conflict at %s" % ".".join(path))]. *)
Definition ConflictError (path : list string) : Exn :=
  {| exn_class := "Exception"; exn_message := "Conflict at " ++ join_dot path |}.

(** Lines 25-44: the loop over the keys of [destination], on the recursion
    path [path].  [source] is updated in place and returned; an exception
    (here [Some e]) escapes with the updates done so far, also from a nested
    call, whose partly merged dict is already stored in [source]. *)
Fixpoint dict_merge_go (dos : bool) (path : list string) (destination : pyobj)
    (source : dict) {struct destination} : dict * option Exn :=
  match destination with
  | PLeaf _ => (source, None)
  | PDict dst =>
      (fix loop (source : dict) (dst : dict) : dict * option Exn :=
         match dst with
         | [] => (source, None)
         | (key, dv) :: rest =>
             match dict_lookup key source with
             | Some sv =>
                 match sv, dv with
                 | PDict sd, PDict _ =>
                     let '(sd', err) := dict_merge_go dos (path ++ [key])%list dv sd in
                     let source' := dict_setitem key (PDict sd') source in
                     match err with
                     | Some e => (source', Some e)
                     | None => loop source' rest
                     end
                 | _, _ =>
                     if py_eq sv dv then loop source rest
                     else if dos then loop (dict_setitem key dv source) rest
                     else (source, Some (ConflictError (path ++ [key])%list))
                 end
             | None => loop (dict_setitem key dv source) rest
             end
         end) source dst
  end.

(** [dict_merge(source, destination, destination_overrides_source, path)]:
    the result dict and the exception raised, if any.  Lines 22-23 default
    the path to [[]]. *)
Definition dict_merge (source destination : dict) (destination_overrides_source : bool)
    (path : option (list string)) : dict * option Exn :=
  dict_merge_go destination_overrides_source
    (match path with Some p => p | None => [] end) (PDict destination) source.

End DictMerge.

Arguments pyobj L : clear implicits.

(** Paths into nested dicts, dicts with unique keys at every level (what a
    Python dict is), and an induction principle for the nested type. *)
Section DictPaths.
Context {L : Type}.

(** [o[k1][k2]...], [None] when a key is missing or a leaf is indexed. *)
Fixpoint lookup_path (ks : list string) (o : pyobj L) : option (pyobj L) :=
  match ks with
  | [] => Some o
  | k :: ks' =>
      match o with
      | PDict d => match dict_lookup k d with Some v => lookup_path ks' v | None => None end
      | PLeaf _ => None
      end
  end.


Fixpoint pyobj_ind' (P : pyobj L -> Prop) (Hl : forall l : L, P (PLeaf l))
    (Hd : forall d, Forall (fun kv => P kv.2) d -> P (PDict d)) (o : pyobj L) : P o :=
  match o with
  | PLeaf l => Hl l
  | PDict d =>
      Hd d ((fix go (d : list (string * pyobj L)) : Forall (fun kv => P kv.2) d :=
               match d with
               | [] => @List.Forall_nil _ _
               | kv :: r => @List.Forall_cons _ _ kv r (pyobj_ind' P Hl Hd kv.2) (go r)
               end) d)
  end.

End DictPaths.

(* ------------------------------------------------------------------ *)
(** ** Python string operations used by [_call_collectstatic] *)

Definition nl : string := String "010"%char EmptyString.

Fixpoint starts_with (prefix s : string) : bool :=
  match prefix, s with
  | EmptyString, _ => true
  | String a p, String b s' => Ascii.eqb a b && starts_with p s'
  | String _ _, EmptyString => false
  end.

(** [s.replace(old, new)] for a non-empty [old]: scanning left to right,
    each occurrence that does not overlap an earlier one is replaced;
    [skip] counts the characters of a replaced occurrence still to drop. *)
Fixpoint replace_go (old new : string) (skip : nat) (s : string) : string :=
  match s with
  | EmptyString => EmptyString
  | String c r =>
      match skip with
      | S k => replace_go old new k r
      | O =>
          if starts_with old s then new ++ replace_go old new (String.length old - 1) r
          else String c (replace_go old new 0 r)
      end
  end.

(** [s.replace("", new)]: [new] before every character and at the end. *)
Fixpoint insert_everywhere (new s : string) : string :=
  new ++ match s with
         | EmptyString => EmptyString
         | String c r => String c (insert_everywhere new r)
         end.

Definition str_replace (s old new : string) : string :=
  match old with
  | EmptyString => insert_everywhere new s
  | String _ _ => replace_go old new 0 s
  end.

(** [s[i:j]] with Python's normalisation of negative and out-of-range
    bounds. *)
Definition py_slice (s : string) (i j : Z) : string :=
  let n := Z.of_nat (String.length s) in
  let norm k := if (k <? 0)%Z then Z.max 0 (k + n) else Z.min k n in
  let a := norm i in
  let b := norm j in
  substring (Z.to_nat a) (Z.to_nat (b - a)) s.

(** Lines 84-94 of [Command._call_collectstatic]: the summary printed by
    [collectstatic] (its standard output) turned into the spinner text,
    for the static directory [static_dir]. *)
Definition call_collectstatic_text (static_dir stdout : string) : string :=
  let collectstatic_stdout :=
    py_slice (str_replace stdout (" copied to '" ++ static_dir ++ "'") "") 1 (-2) in
  "Copy " ++ collectstatic_stdout.

Fixpoint has_char (c : ascii) (s : string) : bool :=
  match s with
  | EmptyString => false
  | String d r => Ascii.eqb c d || has_char c r
  end.

(* ------------------------------------------------------------------ *)
(** ** [Command._set_output_directory] *)

Section OutputDirectory.

(** [get_base_directory()]. *)
Variable base_directory : string.
(** pathlib's [/] joining two paths. *)
Variable path_div : string -> string -> string.

(** A settings value that is not a dict: a string; an object whose
    [__fspath__] returns the string [p] (a [pathlib.Path], say); or any other
    value ([None], a number, a list, ...), named by its type.  None of them
    supports item assignment or item access with a string key, and [Path()]
    accepts only the first two. *)
Inductive SettingValue :=
| SStr (s : string)
| SPathLike (p : string)
| SOther (type_name : string).

(** The Django settings the method touches: [COLTRANE] ([None] when the
    attribute is absent), a dict or any other value, and [STATIC_ROOT]. *)
Record Settings := {
  COLTRANE : option (pyobj SettingValue);
  STATIC_ROOT : SettingValue }.

(** A [TypeError]; its message, which names the offending type, is left
    out. *)
Definition TypeError : Exn :=
  {| exn_class := "TypeError"; exn_message := "" |}.

(** [settings.COLTRANE] once [setattr(settings, "COLTRANE", {})] has run,
    when it is a dict. *)
Definition coltrane_dict (st : Settings) : option (@dict SettingValue) :=
  match COLTRANE st with
  | None => Some []
  | Some (PDict c) => Some c
  | Some (PLeaf _) => None
  end.

(** [Path(v)]: the path of a string or a path-like object; [None] when it
    raises [TypeError]. *)
Definition fspath (v : pyobj SettingValue) : option string :=
  match v with
  | PLeaf (SStr s) => Some s
  | PLeaf (SPathLike p) => Some p
  | _ => None
  end.

(** Lines 130-156, with [options["output"]] given as [None] when the key is
    absent or the value is [None].  The settings after the call and the
    exception raised, if any.  A [COLTRANE] that is not a dict fails the
    membership test of line 135 or the item access or assignment after it;
    a non-dict [OUTPUT] fails the assignment of line 138; [Path(...)] on a
    [DIRECTORY] that is neither a string nor path-like raises, after the
    first [STATIC_ROOT] assignment.  All three are [TypeError]s; the
    [KeyError] of a missing [DIRECTORY] is caught. *)
Definition set_output_directory (output : option string) (st : Settings)
    : Settings * option Exn :=
  match output with
  | None | Some EmptyString => (st, None)
  | Some o =>
      match coltrane_dict st with
      | None => (st, Some TypeError)
      | Some c0 =>
          let c1 := match dict_lookup "OUTPUT" c0 with
                    | Some _ => c0
                    | None => dict_setitem "OUTPUT" (PDict []) c0
                    end in
          match dict_lookup "OUTPUT" c1 with
          | Some (PDict out) =>
              let out' := dict_setitem "PATH" (PLeaf (SStr o)) out in
              let c2 := dict_setitem "OUTPUT" (PDict out') c1 in
              let st1 := {| COLTRANE := Some (PDict c2);
                            STATIC_ROOT :=
                              SPathLike (path_div (path_div base_directory o) "static") |} in
              match dict_lookup "DIRECTORY" out' with
              | None => (st1, None)
              | Some v =>
                  match fspath v with
                  | Some d =>
                      ({| COLTRANE := Some (PDict c2);
                          STATIC_ROOT := SPathLike (path_div d "static") |}, None)
                  | None => (st1, Some TypeError)
                  end
              end
          | Some (PLeaf _) =>
              ({| COLTRANE := Some (PDict c1); STATIC_ROOT := STATIC_ROOT st |},
               Some TypeError)
          | None => (st, None)
          end
      end
  end.

End OutputDirectory.

(* ------------------------------------------------------------------ *)
(** ** Manifest records and sample inputs of the helpers *)

(** The manifest holds a record for [p] with the file's current mtime. *)
Definition record_fresh (fs : FileSystem) (m : Manifest) (p : path) : Prop :=
  exists r, m_data m !! p = Some r /\ mtime r = fs_mtime fs p.

(** A settings-like dict, a destination that clashes with it at
    [output.path], and one that does not. *)
Definition sample_source : @dict string :=
  [("title", PLeaf "Blog"); ("output", PDict [("path", PLeaf "out")])]%list.
Definition sample_clash : @dict string :=
  [("output", PDict [("path", PLeaf "site")]); ("debug", PLeaf "no")]%list.
Definition sample_extra : @dict string :=
  [("output", PDict [("directory", PLeaf "/srv")]); ("debug", PLeaf "no")]%list.

(** Settings with [COLTRANE["OUTPUT"]["DIRECTORY"]] set, and a path join. *)
Definition sample_coltrane (directory : SettingValue) : @dict SettingValue :=
  [("OUTPUT", PDict [("DIRECTORY", PLeaf directory)]); ("TITLE", PLeaf (SStr "Blog"))]%list.
Definition sample_settings : Settings :=
  {| COLTRANE := Some (PDict (sample_coltrane (SStr "/srv/site"))); STATIC_ROOT := SOther "NoneType" |}.
(** The same settings with [DIRECTORY] set to [None]. *)
Definition sample_settings_none : Settings :=
  {| COLTRANE := Some (PDict (sample_coltrane (SOther "NoneType"))); STATIC_ROOT := SOther "NoneType" |}.
Definition sample_path_div (a b : string) : string := a ++ "/" ++ b.

(* ================================================================== *)
(** * Lemmas *)

Open Scope list_scope.

Lemma build_loop_nil fs errs em s :
  build_loop fs [] errs em s = (s, Ok (errs, em)).
Proof. reflexivity. Qed.

Lemma build_loop_cons fs p rest errs em s :
  build_loop fs (p :: rest) errs em s =
  let '(s', e) := run_task fs p s in
  let '(errs', em') := after_error p e errs em in
  build_loop fs rest errs' em' s'.
Proof.
  cbn [build_loop]. unfold mbind, M_bind, exception_of, run_task.
  destruct (output_markdown_file fs p s) as [s' [u | e]]; reflexivity.
Qed.

Lemma handle_eq env opts s :
  handle env opts s =
  let s0 := prelude_state env opts s in
  if (threads_count (cmd s0) <=? 0)%Z
  then (s0, Raise (ValueError "max_workers must be greater than 0"))
  else match build_loop (env_fs env) (env_files env) [] None s0 with
       | (s1, Ok (errs, em)) => epilogue errs em s1
       | (s1, Raise e) => (s1, Raise e)
       end.
Proof.
  destruct s as [[f t mo cnt] w].
  unfold handle, prelude_state, epilogue.
  cbv [mbind M_bind mret M_ret gets modify spinner ThreadPoolExecutor raise
       on_cmd on_world set_threads_count set_is_force set_manifest set_spinner_log
       reset zero_counts].
  simpl.
  destruct (opt_force opts);
    destruct (static_files_manifest_changed
                (load_manifest (manifest_file w) (env_static_state env)));
    simpl;
    (destruct (resolve_threads (opt_threads opts) (env_cpu_count env) t <=? 0)%Z;
     [reflexivity |]);
    match goal with
    | |- context [build_loop ?a ?b ?c ?d ?e] =>
        destruct (build_loop a b c d e) as [s1 [[errs em] | e']]; reflexivity
    end.
Qed.

Module PoolFacts.
Import Pool.

Lemma app_cons_singleton {A} (l1 l2 : list A) (x y : A) :
  (l1 ++ x :: l2)%list = [y] -> l1 = [] /\ x = y /\ l2 = [].
Proof.
  destruct l1 as [| a [| b l1]]; simpl; intros H; inversion H; subst; auto.
Qed.

Lemma app_cons_not_nil {A} (l1 l2 : list A) (x : A) : (l1 ++ x :: l2)%list <> [].
Proof. destruct l1; discriminate. Qed.

Section Inv.
Variable fs : FileSystem.
Variable max_workers : nat.
Variable final : St * pyres (list string * option string).

(** Every reachable configuration holds at most one task, and the
    sequential loop from that configuration ends where the whole run ends. *)
Definition inv (c : Config) : Prop :=
  match phase c with
  | Submitting =>
      queued c = [] /\ running c = [] /\ finished c = [] /\
      build_loop fs (todo c) (errors c) (error_message c) (state c) = final
  | Waiting id p =>
      (((queued c = [(id, p)] /\ running c = []) \/
        (queued c = [] /\ running c = [(id, p)])) /\ finished c = [] /\
       build_loop fs (p :: todo c) (errors c) (error_message c) (state c) = final)
      \/
      (queued c = [] /\ running c = [] /\ exists e, finished c = [(id, e)] /\
       let '(errs, em) := after_error p e (errors c) (error_message c) in
       build_loop fs (todo c) errs em (state c) = final)
  | Exited =>
      queued c = [] /\ running c = [] /\ finished c = [] /\
      (state c, Ok (errors c, error_message c)) = final
  end.

Lemma inv_step c c' : inv c -> step fs max_workers c c' -> inv c'.
Proof.
  intros Hi Hs. destruct Hs as [c p rest Hph Ht | c Hph Ht | c t q Hq Hlen
                               | c r1 r2 t Hr | c id p f1 f2 e Hph Hf];
    unfold inv in *.
  - rewrite Hph in Hi. destruct Hi as (Hq & Hr & Hf & Hb).
    simpl. left. rewrite Hq, Hr, Hf. rewrite Ht in Hb. auto.
  - rewrite Hph in Hi. destruct Hi as (Hq & Hr & Hf & Hb).
    simpl. rewrite Ht in Hb. auto.
  - simpl. destruct (phase c) as [| id p |] eqn:Hph.
    + destruct Hi as (Hq' & _). congruence.
    + destruct Hi as [ [ [[Hq' Hr] | [Hq' Hr]] [Hf Hb] ] | (Hq' & _)];
        try congruence.
      rewrite Hq' in Hq. inversion Hq; subst t q.
      left. rewrite Hr. auto.
    + destruct Hi as (Hq' & _). congruence.
  - unfold finish. destruct (run_task fs (snd t) (state c)) as [s' e] eqn:Ht.
    simpl. destruct (phase c) as [| id p |] eqn:Hph.
    + destruct Hi as (_ & Hr' & _). rewrite Hr' in Hr.
      exfalso. by eapply app_cons_not_nil.
    + destruct Hi as [ [ [[Hq' Hr'] | [Hq' Hr']] [Hf Hb] ] | (_ & Hr' & _)].
      * rewrite Hr' in Hr. exfalso. by eapply app_cons_not_nil.
      * rewrite Hr' in Hr. symmetry in Hr.
        apply app_cons_singleton in Hr as (-> & -> & ->).
        right. simpl in Ht. rewrite build_loop_cons, Ht in Hb.
        repeat split; auto. rewrite Hf. eexists; split; [reflexivity |].
        destruct (after_error p e (errors c) (error_message c)). exact Hb.
      * rewrite Hr' in Hr. exfalso. by eapply app_cons_not_nil.
    + destruct Hi as (_ & Hr' & _). rewrite Hr' in Hr.
      exfalso. by eapply app_cons_not_nil.
  - rewrite Hph in Hi. unfold resume.
    destruct Hi as [(_ & Hf' & _) | (Hq & Hr & e' & Hf' & Hb)].
    + rewrite Hf' in Hf. exfalso. by eapply app_cons_not_nil.
    + rewrite Hf' in Hf. symmetry in Hf.
      apply app_cons_singleton in Hf as (-> & He & ->).
      inversion He; subst e'.
      destruct (after_error p e (errors c) (error_message c)) as [errs em].
      simpl. auto.
Qed.

Lemma inv_rtc c c' : inv c -> rtc (step fs max_workers) c c' -> inv c'.
Proof. intros Hi Hr. induction Hr; eauto using inv_step. Qed.

Lemma inv_in_flight c : inv c -> in_flight c <= 1.
Proof.
  unfold inv, in_flight. destruct (phase c).
  - intros (-> & -> & -> & _). simpl. lia.
  - intros [ [ [[-> ->] | [-> ->]] [-> _] ] | (-> & -> & e & -> & _)];
      simpl; lia.
  - intros (-> & -> & -> & _). simpl. lia.
Qed.

Lemma resume_progress c id p e :
  inv c -> phase c = Waiting id p -> finished c = [(id, e)] ->
  exists c', rtc (step fs max_workers) c c' /\ phase c' = Submitting /\
             todo c' = todo c /\ inv c'.
Proof.
  intros Hi Hph Hf.
  assert (Hs : step fs max_workers c (resume c p [] [] e))
    by (eapply step_resume; [exact Hph | exact Hf]).
  pose proof (inv_step _ _ Hi Hs) as Hi'.
  exists (resume c p [] [] e). split; [by apply rtc_once |].
  unfold resume in *. destruct (after_error p e (errors c) (error_message c)).
  simpl. auto.
Qed.

Lemma finish_progress c id p :
  inv c -> phase c = Waiting id p -> queued c = [] -> running c = [(id, p)] ->
  exists c', rtc (step fs max_workers) c c' /\ phase c' = Submitting /\
             todo c' = todo c /\ inv c'.
Proof.
  intros Hi Hph Hq Hr.
  assert (Hs : step fs max_workers c (finish fs c [] [] (id, p)))
    by (apply step_finish; rewrite Hr; reflexivity).
  pose proof (inv_step _ _ Hi Hs) as Hi'.
  assert (Hf : finished c = []).
  { unfold inv in Hi. rewrite Hph in Hi.
    destruct Hi as [(_ & Hf & _) | (_ & Hr' & _)]; [exact Hf | congruence]. }
  unfold finish in Hs, Hi'. cbn [fst snd] in Hs, Hi'.
  destruct (run_task fs p (state c)) as [s' e] eqn:Ht.
  edestruct (resume_progress _ id p e Hi') as (c' & Hrt & Hph' & Htd & Hi'');
    [simpl; exact Hph | simpl; rewrite Hf; reflexivity |].
  exists c'. split; [eapply rtc_l; eauto |]. simpl in Htd. auto.
Qed.

Lemma waiting_progress c id p :
  0 < max_workers -> inv c -> phase c = Waiting id p ->
  exists c', rtc (step fs max_workers) c c' /\ phase c' = Submitting /\
             todo c' = todo c /\ inv c'.
Proof.
  intros Hw Hi Hph. pose proof Hi as Hi0. unfold inv in Hi0. rewrite Hph in Hi0.
  destruct Hi0 as [[[[Hq Hr] | [Hq Hr]] [Hf _]] | (Hq & Hr & e & Hf & _)].
  - assert (Hs : step fs max_workers c (start c (id, p) []))
      by (apply step_start; [exact Hq | rewrite Hr; simpl; lia]).
    pose proof (inv_step _ _ Hi Hs) as Hi'.
    edestruct (finish_progress (start c (id, p) []) id p Hi')
      as (c' & Hrt & Hph' & Htd & Hi'');
      [exact Hph | reflexivity | simpl; rewrite Hr; reflexivity |].
    exists c'. split; [eapply rtc_l; eauto | auto].
  - eauto using finish_progress.
  - eauto using resume_progress.
Qed.

Lemma progress l :
  0 < max_workers -> forall c, todo c = l -> inv c ->
  exists c', rtc (step fs max_workers) c c' /\ phase c' = Exited.
Proof.
  intros Hw. induction l as [| p rest IH]; intros c Ht Hi.
  - assert (Hsub : forall c, todo c = [] -> phase c = Submitting ->
              exists c', rtc (step fs max_workers) c c' /\ phase c' = Exited).
    { intros c0 Ht0 Hph0. exists (exit_loop c0).
      split; [apply rtc_once; by apply step_exit | reflexivity]. }
    destruct (phase c) as [| id p |] eqn:Hph.
    + auto.
    + destruct (waiting_progress c id p Hw Hi Hph) as (c1 & Hr1 & Hph1 & Ht1 & _).
      destruct (Hsub c1) as (c' & Hr' & Hph'); [congruence | exact Hph1 |].
      exists c'. split; [etrans; eauto | exact Hph'].
    + exists c. split; [reflexivity | exact Hph].
  - assert (Hsub : forall c, todo c = p :: rest -> phase c = Submitting -> inv c ->
              exists c', rtc (step fs max_workers) c c' /\ phase c' = Exited).
    { intros c0 Ht0 Hph0 Hi0.
      assert (Hs : step fs max_workers c0 (submit c0 p rest)) by (by apply step_submit).
      destruct (IH (submit c0 p rest) eq_refl (inv_step _ _ Hi0 Hs)) as (c' & Hr' & Hph').
      exists c'. split; [eapply rtc_l; eauto | exact Hph']. }
    destruct (phase c) as [| id q |] eqn:Hph.
    + auto.
    + destruct (waiting_progress c id q Hw Hi Hph) as (c1 & Hr1 & Hph1 & Ht1 & Hi1).
      destruct (Hsub c1) as (c' & Hr' & Hph'); [congruence | exact Hph1 | exact Hi1 |].
      exists c'. split; [etrans; eauto | exact Hph'].
    + exists c. split; [reflexivity | exact Hph].
Qed.

End Inv.
End PoolFacts.

Lemma output_markdown_file_eq fs p s m :
  manifest (cmd s) = Some m ->
  output_markdown_file fs p s = procedure_effect fs p m s.
Proof.
  destruct s as [[f t mo cnt] w]. simpl. intros ->.
  unfold output_markdown_file, procedure_effect, classify, Manifest_get.
  cbv [mbind M_bind mret M_ret get_manifest gets modify incr_skip incr_update
       incr_create manifest_add render_html write_text].
  destruct f; destruct (m_data m !! p) as [ex |] eqn:El; simpl; rewrite ?El; simpl.
  all: try (destruct (fs_render fs p); reflexivity).
  all: rewrite (Z.eqb_sym (fs_mtime fs p)), (String.eqb_sym (fs_md5 fs p)).
  all: destruct (mtime ex =? fs_mtime fs p)%Z; simpl; [reflexivity |].
  all: destruct (md5 ex =? fs_md5 fs p); simpl;
         [reflexivity | destruct (fs_render fs p); reflexivity].
Qed.

(* ------------------------------------------------------------------ *)
(** ** The loop, file by file *)

Lemma run_task_core fs p s :
  core (fst (run_task fs p s)) = task_core fs (core s) p.
Proof.
  unfold run_task. destruct (manifest (cmd s)) as [m |] eqn:Hm.
  - rewrite (output_markdown_file_eq fs p s m Hm).
    destruct s as [[f t mo cnt] w]. simpl in Hm. subst mo.
    unfold procedure_effect, task_core, core. simpl.
    destruct (classify f (Manifest_get p m) (ManifestItem_create fs p))
      as [[o r] rf].
    destruct r; [destruct (fs_render fs p); reflexivity |].
    destruct rf; reflexivity.
  - unfold output_markdown_file. cbv [mbind M_bind get_manifest].
    rewrite Hm. unfold core. simpl. rewrite Hm. reflexivity.
Qed.

Lemma run_task_frame fs p s :
  let s' := fst (run_task fs p s) in
  manifest_file (world s') = manifest_file (world s) /\
  manifest_writes (world s') = manifest_writes (world s) /\
  threads_count (cmd s') = threads_count (cmd s).
Proof.
  unfold run_task. destruct (manifest (cmd s)) as [m |] eqn:Hm.
  - rewrite (output_markdown_file_eq fs p s m Hm).
    unfold procedure_effect.
    destruct (classify (is_force (cmd s)) (Manifest_get p m) (ManifestItem_create fs p))
      as [[o r] rf].
    destruct r; [destruct (fs_render fs p); simpl; auto |].
    destruct rf; simpl; auto.
  - unfold output_markdown_file. cbv [mbind M_bind get_manifest].
    rewrite Hm. simpl. auto.
Qed.

Lemma build_loop_core fs files errs em s :
  core (fst (build_loop fs files errs em s)) = fold_left (task_core fs) files (core s).
Proof.
  revert errs em s. induction files as [| p rest IH]; intros errs em s.
  - reflexivity.
  - rewrite build_loop_cons. pose proof (run_task_core fs p s) as Hc.
    destruct (run_task fs p s) as [s' e]. simpl in Hc.
    destruct (after_error p e errs em) as [errs' em'].
    simpl. rewrite IH, Hc. reflexivity.
Qed.

Lemma build_loop_frame fs files errs em s :
  let s' := fst (build_loop fs files errs em s) in
  manifest_file (world s') = manifest_file (world s) /\
  manifest_writes (world s') = manifest_writes (world s) /\
  threads_count (cmd s') = threads_count (cmd s).
Proof.
  revert errs em s. induction files as [| p rest IH]; intros errs em s.
  - simpl. auto.
  - rewrite build_loop_cons. pose proof (run_task_frame fs p s) as Hf.
    cbv zeta in Hf |- *.
    destruct (run_task fs p s) as [s' e]. cbn [fst] in Hf.
    destruct (after_error p e errs em) as [errs' em'].
    specialize (IH errs' em' s'). cbv zeta in IH.
    destruct Hf as (H1 & H2 & H3). rewrite <- H1, <- H2, <- H3. exact IH.
Qed.

(** The loop never raises, and [error_message] is set once an error has
    been collected. *)
Lemma build_loop_ok fs files errs em s :
  (errs = [] \/ is_Some em) ->
  exists s' errs' em', build_loop fs files errs em s = (s', Ok (errs', em')) /\
                       (errs' = [] \/ is_Some em').
Proof.
  revert errs em s. induction files as [| p rest IH]; intros errs em s H.
  - eexists _, _, _. split; [reflexivity | exact H].
  - rewrite build_loop_cons. destruct (run_task fs p s) as [s' e].
    unfold after_error. destruct e as [e |].
    + apply IH. right. eexists. reflexivity.
    + apply IH. exact H.
Qed.

Lemma bump_comm o1 o2 n : bump o1 (bump o2 n) = bump o2 (bump o1 n).
Proof. destruct o1, o2; reflexivity. Qed.

Lemma Manifest_get_add_ne fs p q m :
  q <> p -> Manifest_get q (Manifest_add fs p m) = Manifest_get q m.
Proof. intros Hne. unfold Manifest_get, Manifest_add. simpl. by rewrite lookup_insert_ne. Qed.

Lemma Manifest_add_comm fs p q m :
  p <> q -> Manifest_add fs p (Manifest_add fs q m) = Manifest_add fs q (Manifest_add fs p m).
Proof.
  intros Hne. unfold Manifest_add. simpl. f_equal. by apply insert_insert_ne.
Qed.

Lemma task_core_comm fs x p q :
  task_core fs (task_core fs x p) q = task_core fs (task_core fs x q) p.
Proof.
  destruct x as [[cnt [m |]] f]; [| reflexivity].
  destruct (decide (p = q)) as [-> | Hne]; [reflexivity |].
  assert (Hg : forall (b : bool) (a c : path), c <> a ->
            Manifest_get c (if b then Manifest_add fs a m else m) = Manifest_get c m)
    by (intros [|] a c Hca; [by apply Manifest_get_add_ne | reflexivity]).
  cbn [task_core].
  destruct (classify f (Manifest_get p m) (ManifestItem_create fs p))
    as [[o1 r1] f1] eqn:C1.
  destruct (classify f (Manifest_get q m) (ManifestItem_create fs q))
    as [[o2 r2] f2] eqn:C2.
  cbn [task_core].
  rewrite (Hg _ p q) by congruence. rewrite C2.
  rewrite (Hg _ q p) by congruence. rewrite C1.
  rewrite bump_comm. f_equal. f_equal. f_equal.
  destruct (if r1 then is_ok (fs_render fs p) else f1),
           (if r2 then is_ok (fs_render fs q) else f2);
    try reflexivity.
  by apply Manifest_add_comm.
Qed.

Lemma fold_left_perm {A B} (f : A -> B -> A)
    (Hc : forall x a b, f (f x a) b = f (f x b) a) (l l' : list B) (x : A) :
  Permutation l l' -> fold_left f l x = fold_left f l' x.
Proof.
  intros HP. revert x. induction HP as [| a l l' _ IH | a b l | l l' l'' _ IH1 _ IH2];
    intros x; simpl.
  - reflexivity.
  - apply IH.
  - by rewrite Hc.
  - by rewrite IH1, IH2.
Qed.

Lemma task_core_some fs cnt m f p :
  exists cnt' m', task_core fs (cnt, Some m, f) p = (cnt', Some m', f).
Proof.
  simpl. destruct (classify f (Manifest_get p m) (ManifestItem_create fs p)) as [[o r] rf].
  eauto.
Qed.

Lemma fold_task_core_some fs files cnt m f :
  exists cnt' m', fold_left (task_core fs) files (cnt, Some m, f) = (cnt', Some m', f).
Proof.
  revert cnt m. induction files as [| p rest IH]; intros cnt m; cbn [fold_left].
  - eauto.
  - destruct (task_core_some fs cnt m f p) as (cnt' & m' & ->). apply IH.
Qed.

(* ------------------------------------------------------------------ *)
(** ** After the loop *)

Lemma report_errors_frame errs em s :
  (errs = [] \/ is_Some em) ->
  exists s', report_errors errs em s = (s', Ok tt) /\ cmd s' = cmd s /\
    outputs (world s') = outputs (world s) /\
    render_calls (world s') = render_calls (world s) /\
    manifest_file (world s') = manifest_file (world s) /\
    manifest_writes (world s') = manifest_writes (world s).
Proof.
  revert s. induction errs as [| e rest IH]; intros s H.
  - exists s. split; [reflexivity | auto].
  - destruct H as [H | [m Hm]]; [discriminate |]. subst em.
    cbn [report_errors]. cbv [mbind M_bind spinner modify].
    destruct (IH (on_world (fun w => set_spinner_log (spinner_log w ++ [SpinFail m]) w) s))
      as (s' & Hr & H1 & H2 & H3 & H4 & H5); [right; eexists; reflexivity |].
    rewrite Hr. exists s'. simpl in *. repeat split; congruence.
Qed.

Lemma epilogue_spec errs em s m :
  manifest (cmd s) = Some m -> (errs = [] \/ is_Some em) ->
  exists s', epilogue errs em s = (s', Ok tt) /\ cmd s' = cmd s /\
    outputs (world s') = outputs (world s) /\
    render_calls (world s') = render_calls (world s) /\
    manifest_file (world s') =
      (if is_dirty m then Some {| mf_data := m_data m; mf_static := m_static_current m |}
       else manifest_file (world s)) /\
    manifest_writes (world s') =
      (if is_dirty m then S (manifest_writes (world s)) else manifest_writes (world s)).
Proof.
  intros Hm He. unfold epilogue. cbv [mbind M_bind gets spinner modify].
  destruct (report_errors_frame errs em
             (on_world (fun w => set_spinner_log
               (spinner_log w ++ [SpinSucceed (result_msg (output_result_counts (cmd s)))]) w) s)
             He) as (s1 & Hr & H1 & H2 & H3 & H4 & H5).
  rewrite Hr. unfold get_manifest. rewrite H1. simpl. rewrite Hm.
  simpl in *. destruct (is_dirty m).
  - cbv [write_data modify mbind M_bind spinner]. eexists. split; [reflexivity |].
    simpl. rewrite H1, H2, H3, H5. auto.
  - eexists. split; [reflexivity |]. rewrite H1, H2, H3, H4, H5. auto.
Qed.

(** The counters, in-memory manifest and manifest file a run ends with. *)
Lemma handle_counts_and_manifest env opts s :
  counts_and_manifest (handle env opts s) =
  let s0 := prelude_state env opts s in
  if (threads_count (cmd s0) <=? 0)%Z
  then (output_result_counts (cmd s0), manifest (cmd s0), manifest_file (world s))
  else
    let '(cnt, mo, _) := fold_left (task_core (env_fs env)) (env_files env) (core s0) in
    (cnt, mo,
     match mo with
     | Some m => if is_dirty m
                 then Some {| mf_data := m_data m; mf_static := m_static_current m |}
                 else manifest_file (world s)
     | None => manifest_file (world s)
     end).
Proof.
  rewrite handle_eq. cbv zeta.
  destruct (threads_count (cmd (prelude_state env opts s)) <=? 0)%Z; [reflexivity |].
  set (s0 := prelude_state env opts s).
  destruct (build_loop_ok (env_fs env) (env_files env) [] None s0)
    as (s1 & errs & em & Hl & He); [left; reflexivity |].
  pose proof (build_loop_core (env_fs env) (env_files env) [] None s0) as Hc.
  pose proof (build_loop_frame (env_fs env) (env_files env) [] None s0) as Hf.
  rewrite Hl in Hc, Hf |- *. cbv zeta in Hf. simpl in Hc, Hf.
  assert (Hs : core s0 = (zero_counts, Some (load_manifest (manifest_file (world s))
                             (env_static_state env)), is_force (cmd s0))) by reflexivity.
  rewrite Hs in Hc |- *.
  destruct (fold_task_core_some (env_fs env) (env_files env) zero_counts
              (load_manifest (manifest_file (world s)) (env_static_state env))
              (is_force (cmd s0))) as (cnt & m & Hfold).
  rewrite Hfold in Hc |- *. unfold core in Hc. inversion Hc as [[Hcnt Hm Hfo]].
  destruct (epilogue_spec errs em s1 m Hm He) as (s2 & He2 & H1 & H2 & H3 & H4 & H5).
  rewrite He2. unfold counts_and_manifest. simpl. rewrite H1, Hcnt, Hm, H4.
  destruct Hf as (Hmf & _ & _). rewrite Hmf. reflexivity.
Qed.

(* ------------------------------------------------------------------ *)
(** ** Forced builds *)

Lemma run_task_forced fs p s m :
  is_force (cmd s) = true -> manifest (cmd s) = Some m ->
  let s' := fst (run_task fs p s) in
  is_force (cmd s') = true /\ (exists m', manifest (cmd s') = Some m') /\
  output_result_counts (cmd s') =
    bump (match Manifest_get p m with Some _ => Update | None => Create end)
         (output_result_counts (cmd s)) /\
  render_calls (world s') = render_calls (world s) ++ [p].
Proof.
  intros Hf Hm. unfold run_task. rewrite (output_markdown_file_eq fs p s m Hm).
  destruct s as [[f t mo cnt] w]. simpl in Hf, Hm. subst f mo.
  unfold procedure_effect, classify. simpl.
  destruct (fs_render fs p); simpl; eauto 6.
Qed.

Lemma build_loop_forced fs files errs em s m :
  is_force (cmd s) = true -> manifest (cmd s) = Some m ->
  let s' := fst (build_loop fs files errs em s) in
  skip_count (output_result_counts (cmd s')) = skip_count (output_result_counts (cmd s)) /\
  create_count (output_result_counts (cmd s')) + update_count (output_result_counts (cmd s')) =
    create_count (output_result_counts (cmd s)) + update_count (output_result_counts (cmd s))
    + length files /\
  render_calls (world s') = render_calls (world s) ++ files.
Proof.
  revert errs em s m. induction files as [| p rest IH]; intros errs em s m Hf Hm.
  - simpl. rewrite app_nil_r. auto.
  - rewrite build_loop_cons. pose proof (run_task_forced fs p s m Hf Hm) as Ht.
    cbv zeta in Ht |- *.
    destruct (run_task fs p s) as [s' e]. cbn [fst] in Ht.
    destruct Ht as (Hf' & [m' Hm'] & Hc & Hr).
    destruct (after_error p e errs em) as [errs' em'].
    destruct (IH errs' em' s' m' Hf' Hm') as (H1 & H2 & H3).
    rewrite H1, H2, H3, Hc, Hr.
    destruct (Manifest_get p m); simpl; rewrite <- ?app_assoc; simpl; repeat split; lia.
Qed.

(* ------------------------------------------------------------------ *)
(** ** [dict_merge] *)

Section DictFacts.
Context {L : Type} `{EqDecision L}.
Implicit Types (d source rest dst : list (string * pyobj L)) (o dv v a b : pyobj L).

Lemma dict_merge_go_cons dos path key dv rest source :
  dict_merge_go dos path (PDict ((key, dv) :: rest)) source =
  match dict_lookup key source with
  | Some sv =>
      match sv, dv with
      | PDict sd, PDict _ =>
          let '(sd', err) := dict_merge_go dos (path ++ [key])%list dv sd in
          match err with
          | Some e => (dict_setitem key (PDict sd') source, Some e)
          | None => dict_merge_go dos path (PDict rest) (dict_setitem key (PDict sd') source)
          end
      | _, _ =>
          if py_eq sv dv then dict_merge_go dos path (PDict rest) source
          else if dos then dict_merge_go dos path (PDict rest) (dict_setitem key dv source)
          else (source, Some (ConflictError (path ++ [key])%list))
      end
  | None => dict_merge_go dos path (PDict rest) (dict_setitem key dv source)
  end.
Proof. reflexivity. Qed.

Lemma dict_lookup_setitem k k' v d :
  dict_lookup k (dict_setitem k' v d) = if String.eqb k k' then Some v else dict_lookup k d.
Proof.
  induction d as [| [k'' v''] r IH]; simpl.
  - destruct (String.eqb k k'); reflexivity.
  - destruct (String.eqb_spec k' k'') as [-> | Hne]; simpl.
    + destruct (String.eqb k k''); reflexivity.
    + destruct (String.eqb_spec k k'') as [-> | Hk]; [| exact IH].
      destruct (String.eqb_spec k'' k') as [-> | _]; [congruence | reflexivity].
Qed.

Lemma dict_lookup_None k d : dict_lookup k d = None <-> k ∉ map fst d.
Proof.
  induction d as [| [k' v'] r IH]; simpl.
  - split; [intros _; apply not_elem_of_nil | reflexivity].
  - rewrite elem_of_cons. destruct (String.eqb_spec k k') as [-> | Hne].
    + split; [discriminate | intros H; exfalso; apply H; left; reflexivity].
    + rewrite IH. split; [intros H [? | ?]; [congruence | auto] | intros H Hr; apply H; auto].
Qed.

Lemma dict_setitem_keys_new k v d :
  dict_lookup k d = None -> map fst (dict_setitem k v d) = map fst d ++ [k].
Proof.
  induction d as [| [k' v'] r IH]; simpl; [reflexivity |].
  destruct (String.eqb k k'); [discriminate |]. intros H. simpl. rewrite IH by exact H.
  reflexivity.
Qed.

Lemma dict_setitem_keys_old k v d (v0 : pyobj L) :
  dict_lookup k d = Some v0 -> map fst (dict_setitem k v d) = map fst d.
Proof.
  induction d as [| [k' v'] r IH]; simpl; [discriminate |].
  destruct (String.eqb k k'); [reflexivity |]. intros H. simpl. rewrite IH by exact H.
  reflexivity.
Qed.

Lemma dict_setitem_append k v d : dict_lookup k d = None -> dict_setitem k v d = d ++ [(k, v)].
Proof.
  induction d as [| [k' v'] r IH]; simpl; [reflexivity |].
  destruct (String.eqb k k'); [discriminate |]. intros H. by rewrite IH.
Qed.

Lemma dict_setitem_setitem k v w d :
  dict_setitem k v (dict_setitem k w d) = dict_setitem k v d.
Proof.
  induction d as [| [k' v'] r IH]; simpl.
  - by rewrite String.eqb_refl.
  - destruct (String.eqb k k') eqn:E; simpl; rewrite E; [reflexivity | by rewrite IH].
Qed.

Lemma lookup_path_cons k ks d :
  lookup_path (k :: ks) (PDict d) =
  match dict_lookup k d with Some v => lookup_path ks v | None => None end.
Proof. reflexivity. Qed.


(** Keys the destination does not name are never touched. *)
Lemma dict_merge_go_other dos path dst source k :
  k ∉ map fst dst ->
  dict_lookup k (fst (dict_merge_go dos path (PDict dst) source)) = dict_lookup k source.
Proof.
  revert source. induction dst as [| [key dv] rest IH]; intros source Hk; [reflexivity |].
  rewrite dict_merge_go_cons. simpl in Hk. rewrite elem_of_cons in Hk.
  assert (Hne : String.eqb k key = false) by (apply String.eqb_neq; intros ->; auto).
  assert (Hr : k ∉ map fst rest) by auto.
  destruct (dict_lookup key source) as [sv |].
  - destruct sv as [l | sd]; [| destruct dv as [l' | dd]].
    + destruct (py_eq (PLeaf l) dv); [by apply IH |].
      destruct dos; [rewrite IH by exact Hr; by rewrite dict_lookup_setitem, Hne | reflexivity].
    + destruct (py_eq (PDict sd) (PLeaf l')); [by apply IH |].
      destruct dos; [rewrite IH by exact Hr; by rewrite dict_lookup_setitem, Hne | reflexivity].
    + destruct (dict_merge_go dos (path ++ [key])%list (PDict dd) sd) as [sd' [e |]]; cbn [fst].
      * by rewrite dict_lookup_setitem, Hne.
      * rewrite IH by exact Hr. by rewrite dict_lookup_setitem, Hne.
  - rewrite IH by exact Hr. by rewrite dict_lookup_setitem, Hne.
Qed.


Lemma existsb_keys k d :
  existsb (String.eqb k) (map fst d) =
  match dict_lookup k d with Some _ => true | None => false end.
Proof.
  induction d as [| [k' v'] r IH]; simpl; [reflexivity |].
  destruct (String.eqb k k'); simpl; auto.
Qed.

Lemma lookup_path_setitem k ks key w source :
  lookup_path (k :: ks) (PDict (dict_setitem key w source)) =
  if String.eqb k key then lookup_path ks w else lookup_path (k :: ks) (PDict source).
Proof.
  rewrite !lookup_path_cons, dict_lookup_setitem. by destruct (String.eqb k key).
Qed.

Lemma dict_merge_go_keep_leaves o : forall path source ks (v : L),
  lookup_path ks (PDict source) = Some (PLeaf v) ->
  lookup_path ks (PDict (fst (dict_merge_go false path o source))) = Some (PLeaf v).
Proof.
  induction o as [l | d IHd] using pyobj_ind'; intros path source ks v H; [exact H |].
  revert source H. induction d as [| [key dv] rest IH]; intros source H; [exact H |].
  rewrite Forall_cons in IHd. destruct IHd as [Hdv Hrest]. simpl in Hdv.
  specialize (IH Hrest).
  destruct ks as [| k ks']; [discriminate |].
  rewrite dict_merge_go_cons.
  destruct (dict_lookup key source) as [sv |] eqn:Hkey.
  - destruct sv as [l | sd]; [| destruct dv as [l' | dd]].
    + destruct (py_eq (PLeaf l) dv); [by apply IH | exact H].
    + destruct (py_eq (PDict sd) (PLeaf l')); [by apply IH | exact H].
    + destruct (dict_merge_go false (path ++ [key]) (PDict dd) sd) as [sd' err] eqn:E.
      assert (H' : lookup_path (k :: ks') (PDict (dict_setitem key (PDict sd') source))
                   = Some (PLeaf v)).
      { rewrite lookup_path_setitem. destruct (String.eqb_spec k key) as [-> | _]; [| exact H].
        rewrite lookup_path_cons, Hkey in H.
        pose proof (Hdv (path ++ [key]) sd ks' v H) as Hs. rewrite E in Hs. exact Hs. }
      destruct err as [e |]; [exact H' | by apply IH].
  - apply IH. rewrite lookup_path_setitem.
    destruct (String.eqb_spec k key) as [-> | _]; [| exact H].
    rewrite lookup_path_cons, Hkey in H. discriminate.
Qed.





Lemma dict_merge_go_keys dos path dst source :
  NoDup (map fst dst) -> snd (dict_merge_go dos path (PDict dst) source) = None ->
  map fst (fst (dict_merge_go dos path (PDict dst) source)) =
  map fst source ++
    List.filter (fun k => negb (existsb (String.eqb k) (map fst source))) (map fst dst).
Proof.
  revert source. induction dst as [| [key dv] rest IH]; intros source Hnd Hok.
  { simpl. by rewrite app_nil_r. }
  simpl in Hnd. apply NoDup_cons in Hnd as [Hkr Hnd].
  rewrite dict_merge_go_cons in Hok |- *. cbn [map List.filter fst].
  rewrite existsb_keys.
  destruct (dict_lookup key source) as [sv |] eqn:Hkey.
  - assert (Hstep : forall source', map fst source' = map fst source ->
              snd (dict_merge_go dos path (PDict rest) source') = None ->
              map fst (fst (dict_merge_go dos path (PDict rest) source')) =
              map fst source ++
                List.filter (fun k => negb (existsb (String.eqb k) (map fst source)))
                  (map fst rest)).
    { intros source' Hk Hok'. rewrite IH by assumption. by rewrite Hk. }
    simpl. destruct sv as [l | sd]; [| destruct dv as [l' | dd]].
    + destruct (py_eq (PLeaf l) dv); [by apply Hstep |].
      destruct dos; [| discriminate]. apply Hstep; [| exact Hok].
      by eapply dict_setitem_keys_old.
    + destruct (py_eq (PDict sd) (PLeaf l')); [by apply Hstep |].
      destruct dos; [| discriminate]. apply Hstep; [| exact Hok].
      by eapply dict_setitem_keys_old.
    + destruct (dict_merge_go dos (path ++ [key]) (PDict dd) sd) as [sd' [e |]];
        [discriminate |].
      apply Hstep; [| exact Hok]. by eapply dict_setitem_keys_old.
  - rewrite IH by assumption. rewrite dict_setitem_keys_new by exact Hkey.
    simpl. rewrite <- app_assoc. simpl. f_equal. f_equal.
    apply List.filter_ext_in. intros k Hk. apply list_elem_of_In in Hk.
    rewrite existsb_app. simpl.
    destruct (String.eqb_spec k key) as [-> | _]; [contradiction | by rewrite orb_false_r].
Qed.

Lemma dict_merge_go_fresh dos path dst pre :
  NoDup (map fst (pre ++ dst)) -> dict_merge_go dos path (PDict dst) pre = (pre ++ dst, None).
Proof.
  revert pre. induction dst as [| [key dv] rest IH]; intros pre Hnd.
  { by rewrite app_nil_r. }
  rewrite dict_merge_go_cons.
  assert (Hk : dict_lookup key pre = None).
  { apply dict_lookup_None. rewrite map_app in Hnd. apply NoDup_app in Hnd as (_ & Hd & _).
    intros Hin. apply (Hd key Hin). simpl. left. }
  rewrite Hk, dict_setitem_append by exact Hk. rewrite IH.
  - by rewrite <- app_assoc.
  - by rewrite <- app_assoc.
Qed.


End DictFacts.

(* ------------------------------------------------------------------ *)
(** ** Python strings *)

Section StringFacts.
Open Scope string_scope.

Lemma append_cons c (a b : string) : String c a ++ b = String c (a ++ b).
Proof. reflexivity. Qed.

Lemma string_app_assoc (a b c : string) : a ++ (b ++ c) = (a ++ b) ++ c.
Proof. induction a as [| x a IH]; [reflexivity |]. rewrite !append_cons. by rewrite IH. Qed.

Lemma string_length_app (a b : string) : String.length (a ++ b) = String.length a + String.length b.
Proof. induction a as [| x a IH]; [reflexivity |]. rewrite append_cons. simpl. by rewrite IH. Qed.

Lemma substring_app (r t : string) : substring 0 (String.length r) (r ++ t) = r.
Proof.
  induction r as [| a r IH]; [by destruct t |]. rewrite append_cons. simpl. by rewrite IH.
Qed.

Lemma starts_with_length p s : starts_with p s = true -> String.length p <= String.length s.
Proof.
  revert s. induction p as [| a p IH]; intros [| b s]; simpl; try lia; try discriminate.
  intros H. apply andb_true_iff in H as [_ H]. specialize (IH s H). lia.
Qed.

Lemma append_nil_l (b : string) : "" ++ b = b.
Proof. reflexivity. Qed.

Lemma starts_with_quote_free p0 t :
  has_char "'"%char t = false -> starts_with (p0 ++ "'") t = false.
Proof.
  revert t. induction p0 as [| a p0 IH]; intros [| b t] Ht; rewrite ?append_nil_l, ?append_cons;
    cbn [starts_with has_char] in *; try reflexivity.
  - apply orb_false_iff in Ht as [Hb _]. by rewrite Hb.
  - apply orb_false_iff in Ht as [_ Ht]. rewrite IH by exact Ht. apply andb_false_r.
Qed.

Lemma starts_with_app_quote_free p0 s t :
  has_char "'"%char t = false ->
  starts_with (p0 ++ "'") (s ++ t) = starts_with (p0 ++ "'") s.
Proof.
  revert s. induction p0 as [| a p0 IH]; intros [| b s] Ht.
  - rewrite append_nil_l. by apply starts_with_quote_free with (p0 := "").
  - rewrite !append_nil_l, append_cons. reflexivity.
  - rewrite append_nil_l. by apply starts_with_quote_free with (p0 := String a p0).
  - rewrite !append_cons. cbn [starts_with]. by rewrite IH.
Qed.

Lemma replace_go_quote_free p0 new t :
  has_char "'"%char t = false -> replace_go (p0 ++ "'") new 0 t = t.
Proof.
  induction t as [| c t IH]; intros Ht; [reflexivity |].
  cbn [replace_go]. rewrite starts_with_quote_free by exact Ht.
  cbn [has_char] in Ht. apply orb_false_iff in Ht as [_ Ht]. by rewrite IH.
Qed.

Lemma replace_go_app_quote_free p0 new s t k :
  has_char "'"%char t = false -> k <= String.length s ->
  replace_go (p0 ++ "'") new k (s ++ t) = replace_go (p0 ++ "'") new k s ++ t.
Proof.
  intros Ht. revert k. induction s as [| c s IH]; intros k Hk.
  - simpl in Hk. assert (k = 0) as -> by lia. rewrite append_nil_l.
    rewrite replace_go_quote_free by exact Ht. reflexivity.
  - rewrite append_cons. destruct k as [| k].
    + cbn [replace_go]. rewrite <- append_cons.
      rewrite (starts_with_app_quote_free p0 (String c s) t Ht).
      destruct (starts_with (p0 ++ "'") (String c s)) eqn:E.
      * apply starts_with_length in E. simpl in E.
        rewrite IH by lia. apply string_app_assoc.
      * rewrite IH by lia. reflexivity.
    + simpl in Hk. cbn [replace_go]. apply IH. lia.
Qed.

Lemma str_replace_quote s p0 new :
  str_replace s (p0 ++ "'") new = replace_go (p0 ++ "'") new 0 s.
Proof. by destruct p0. Qed.

Lemma substring_zero k (s : string) : substring k 0 s = "".
Proof. revert s. induction k as [| k IH]; intros [| c s]; simpl; auto. Qed.

Lemma append_nil_r (s : string) : s ++ "" = s.
Proof. induction s as [| c s IH]; [reflexivity |]. rewrite append_cons. by rewrite IH. Qed.

End StringFacts.

(* ------------------------------------------------------------------ *)
(** ** Whole builds *)

Lemma handle_loop env opts s :
  (0 < threads_count (cmd (prelude_state env opts s)))%Z ->
  exists s1 errs em,
    build_loop (env_fs env) (env_files env) [] None (prelude_state env opts s) = (s1, Ok (errs, em)) /\
    (errs = [] \/ is_Some em) /\
    run_handle env opts s = epilogue errs em s1.
Proof.
  intros Hn. unfold run_handle. rewrite handle_eq. cbv zeta.
  replace (threads_count (cmd (prelude_state env opts s)) <=? 0)%Z with false by lia.
  destruct (build_loop_ok (env_fs env) (env_files env) [] None (prelude_state env opts s))
    as (s1 & errs & em & Hl & He); [left; reflexivity |].
  exists s1, errs, em. rewrite Hl. auto.
Qed.

Lemma Manifest_add_fresh_self fs p m : record_fresh fs (Manifest_add fs p m) p.
Proof. exists (ManifestItem_create fs p). simpl. rewrite lookup_insert_eq. auto. Qed.

Lemma Manifest_add_fresh_other fs p q m :
  record_fresh fs m q -> record_fresh fs (Manifest_add fs p m) q.
Proof.
  destruct (decide (q = p)) as [-> | Hne]; [intros; apply Manifest_add_fresh_self |].
  intros (r & Hr & Ht). exists r. simpl. rewrite lookup_insert_ne by congruence. auto.
Qed.

Lemma task_core_step fs cnt m f p cnt' m' f' :
  task_core fs (cnt, Some m, f) p = (cnt', Some m', f') ->
  (m' = m \/ m' = Manifest_add fs p m) /\
  (is_ok (fs_render fs p) = true -> record_fresh fs m' p).
Proof.
  cbn [task_core]. unfold classify, Manifest_get.
  destruct f.
  - destruct (m_data m !! p); intros [= _ <- _]; destruct (is_ok (fs_render fs p)) eqn:Ho;
      (split; [auto | intros Hok; try discriminate; apply Manifest_add_fresh_self]).
  - destruct (m_data m !! p) as [r |] eqn:Er.
    + destruct (mtime (ManifestItem_create fs p) =? mtime r)%Z eqn:Et.
      * intros [= _ <- _]. split; [auto |]. intros _. exists r. split; [exact Er |].
        apply Z.eqb_eq in Et. simpl in Et. lia.
      * destruct (md5 (ManifestItem_create fs p) =? md5 r).
        -- intros [= _ <- _]. split; [auto |]. intros _. apply Manifest_add_fresh_self.
        -- intros [= _ <- _]. destruct (is_ok (fs_render fs p)) eqn:Ho;
             (split; [auto | intros Hok; try discriminate; apply Manifest_add_fresh_self]).
    + intros [= _ <- _]. destruct (is_ok (fs_render fs p)) eqn:Ho;
        (split; [auto | intros Hok; try discriminate; apply Manifest_add_fresh_self]).
Qed.

Lemma fold_task_core_records fs files cnt m f cnt' m' f' :
  fold_left (task_core fs) files (cnt, Some m, f) = (cnt', Some m', f') ->
  (forall q, ~ In q files -> m_data m' !! q = m_data m !! q) /\
  (forall q, record_fresh fs m q -> record_fresh fs m' q) /\
  (forall p, In p files -> is_ok (fs_render fs p) = true -> record_fresh fs m' p).
Proof.
  revert cnt m f. induction files as [| p rest IH]; intros cnt m f; cbn [fold_left].
  - intros [= _ <- _]. split; [auto |]. split; [auto |]. intros p [].
  - destruct (task_core fs (cnt, Some m, f) p) as [[c1 [m1 |]] f1] eqn:Ht.
    2: { destruct (task_core_some fs cnt m f p) as (? & ? & E). congruence. }
    destruct (task_core_step fs cnt m f p c1 m1 f1 Ht) as [Hm1 Hf1].
    intros Hfold. destruct (IH c1 m1 f1 Hfold) as (H1 & H2 & H3).
    assert (Hfr : forall q, record_fresh fs m q -> record_fresh fs m1 q)
      by (intros q Hq; destruct Hm1 as [-> | ->]; [exact Hq | by apply Manifest_add_fresh_other]).
    split; [| split].
    + intros q Hq. rewrite H1 by (intros Hin; apply Hq; right; exact Hin).
      destruct Hm1 as [-> | ->]; [reflexivity |]. simpl.
      apply lookup_insert_ne. intros ->. apply Hq. left. reflexivity.
    + intros q Hq. apply H2, Hfr, Hq.
    + intros q [<- | Hq] Hok; [apply H2, Hf1, Hok | apply H3; assumption].
Qed.

Lemma fold_task_core_shape fs files cnt m f cnt' m' f' :
  fold_left (task_core fs) files (cnt, Some m, f) = (cnt', Some m', f') ->
  (m' = m \/ is_dirty m' = true) /\
  m_static_recorded m' = m_static_recorded m /\
  m_static_current m' = m_static_current m /\
  (f = true -> files <> [] -> (forall p, In p files -> is_ok (fs_render fs p) = true) ->
   is_dirty m' = true).
Proof.
  revert cnt m f. induction files as [| p rest IH]; intros cnt m f; cbn [fold_left].
  - intros [= _ <- _]. split; [auto | split; [auto | split; [auto | intros _ []; reflexivity]]].
  - destruct (task_core fs (cnt, Some m, f) p) as [[c1 [m1 |]] f1] eqn:Ht.
    2: { destruct (task_core_some fs cnt m f p) as (? & ? & E). congruence. }
    assert (f1 = f) as ->
      by (destruct (task_core_some fs cnt m f p) as (? & ? & E); congruence).
    destruct (task_core_step fs cnt m f p c1 m1 f Ht) as [Hm1 _].
    intros Hfold. destruct (IH c1 m1 f Hfold) as (H1 & H2 & H3 & H4).
    assert (Hd : is_dirty m1 = true -> is_dirty m' = true)
      by (intros Hd1; destruct H1 as [-> | ?]; auto).
    assert (Hst : m_static_recorded m1 = m_static_recorded m /\
                  m_static_current m1 = m_static_current m)
      by (destruct Hm1 as [-> | ->]; auto).
    destruct Hst as [Hs1 Hs2].
    split; [| split; [congruence | split; [congruence |]]].
    + destruct Hm1 as [-> | ->]; [exact H1 | right; apply Hd; reflexivity].
    + intros -> _ Hok. apply Hd.
      assert (Hp : is_ok (fs_render fs p) = true) by (apply Hok; left; reflexivity).
      cbn [task_core] in Ht. unfold classify in Ht. rewrite Hp in Ht.
      destruct (Manifest_get p m); injection Ht as _ <-; reflexivity.
Qed.

Lemma run_task_fresh fs p s m :
  manifest (cmd s) = Some m -> is_force (cmd s) = false -> record_fresh fs m p ->
  run_task fs p s = (on_cmd (fun c => set_counts (bump Skip (output_result_counts c)) c) s, None).
Proof.
  intros Hm Hf (r & Hr & Ht). unfold run_task.
  rewrite (output_markdown_file_eq fs p s m Hm). unfold procedure_effect, classify.
  rewrite Hf. unfold Manifest_get. rewrite Hr. simpl. rewrite Ht, Z.eqb_refl. reflexivity.
Qed.

Lemma build_loop_fresh fs files errs em s m :
  manifest (cmd s) = Some m -> is_force (cmd s) = false ->
  (forall p, In p files -> record_fresh fs m p) ->
  build_loop fs files errs em s =
  (on_cmd (fun c =>
     let n := output_result_counts c in
     set_counts {| create_count := create_count n; update_count := update_count n;
                   skip_count := skip_count n + length files |} c) s, Ok (errs, em)).
Proof.
  revert s. induction files as [| p rest IH]; intros s Hm Hf Hfr.
  - destruct s as [[f t mo [c u k]] w]. unfold on_cmd, set_counts. simpl. rewrite Nat.add_0_r. reflexivity.
  - rewrite build_loop_cons, (run_task_fresh fs p s m Hm Hf) by (apply Hfr; left; reflexivity).
    cbn [after_error]. rewrite IH.
    + destruct s as [[f t mo [c u k]] w]. unfold on_cmd, set_counts. simpl. rewrite <- plus_n_Sm. reflexivity.
    + exact Hm.
    + exact Hf.
    + intros q Hq. apply Hfr. right. exact Hq.
Qed.

Lemma handle_threads env opts s :
  (0 < resolve_threads (opt_threads opts) (env_cpu_count env) (threads_count (cmd s)))%Z ->
  threads_count (cmd (fst (run_handle env opts s))) =
  resolve_threads (opt_threads opts) (env_cpu_count env) (threads_count (cmd s)).
Proof.
  intros Hn. destruct (handle_loop env opts s Hn) as (s1 & errs & em & Hl & He & ->).
  pose proof (build_loop_frame (env_fs env) (env_files env) [] None (prelude_state env opts s))
    as Hf. rewrite Hl in Hf. cbv zeta in Hf. cbn [fst] in Hf. destruct Hf as (_ & _ & Ht).
  pose proof (build_loop_core (env_fs env) (env_files env) [] None (prelude_state env opts s))
    as Hc. rewrite Hl in Hc. cbn [fst] in Hc.
  assert (Hs : core (prelude_state env opts s) =
            (zero_counts, Some (load_manifest (manifest_file (world s)) (env_static_state env)),
             is_force (cmd (prelude_state env opts s)))) by reflexivity.
  rewrite Hs in Hc.
  destruct (fold_task_core_some (env_fs env) (env_files env) zero_counts
              (load_manifest (manifest_file (world s)) (env_static_state env))
              (is_force (cmd (prelude_state env opts s)))) as (cnt & m & Hfold).
  rewrite Hfold in Hc. unfold core in Hc. injection Hc as _ Hm _.
  destruct (epilogue_spec errs em s1 m Hm He) as (s2 & -> & H1 & _).
  simpl. rewrite H1, Ht. reflexivity.
Qed.

(** After a build in which every discovered file renders, the manifest file
    on disk records the current static state and a record with the current
    mtime of every discovered file. *)
Lemma first_build_manifest_file env opts s :
  (0 < resolve_threads (opt_threads opts) (env_cpu_count env) (threads_count (cmd s)))%Z ->
  env_files env <> [] ->
  (forall p, In p (env_files env) -> is_ok (fs_render (env_fs env) p) = true) ->
  exists mf, manifest_file (world (fst (run_handle env opts s))) = Some mf /\
    mf_static mf = env_static_state env /\
    (forall p, In p (env_files env) ->
       exists r, mf_data mf !! p = Some r /\ mtime r = fs_mtime (env_fs env) p).
Proof.
  intros Hn Hne Hok. destruct (handle_loop env opts s Hn) as (s1 & errs & em & Hl & He & ->).
  set (m0 := load_manifest (manifest_file (world s)) (env_static_state env)).
  pose proof (build_loop_frame (env_fs env) (env_files env) [] None (prelude_state env opts s))
    as Hf. rewrite Hl in Hf. cbv zeta in Hf. cbn [fst] in Hf. destruct Hf as (Hmf & _ & _).
  pose proof (build_loop_core (env_fs env) (env_files env) [] None (prelude_state env opts s))
    as Hc. rewrite Hl in Hc. cbn [fst] in Hc.
  assert (Hs : core (prelude_state env opts s) =
            (zero_counts, Some m0, opt_force opts || static_files_manifest_changed m0))
    by reflexivity.
  rewrite Hs in Hc.
  destruct (fold_left (task_core (env_fs env)) (env_files env) _) as [[cnt [m1 |]] f0] eqn:Hfold.
  2: { destruct (fold_task_core_some (env_fs env) (env_files env) zero_counts m0
          (opt_force opts || static_files_manifest_changed m0)) as (? & ? & E). congruence. }
  assert (f0 = opt_force opts || static_files_manifest_changed m0) as Hf0.
  { destruct (fold_task_core_some (env_fs env) (env_files env) zero_counts m0
          (opt_force opts || static_files_manifest_changed m0)) as (? & ? & E). congruence. }
  subst f0.
  unfold core in Hc. injection Hc as _ Hm _.
  destruct (fold_task_core_records _ _ _ _ _ _ _ _ Hfold) as (_ & _ & Hfr).
  destruct (fold_task_core_shape _ _ _ _ _ _ _ _ Hfold) as (Hsh & _ & Hcur & Hforce).
  destruct (epilogue_spec errs em s1 m1 Hm He) as (s2 & -> & _ & _ & _ & Hw & _).
  cbn [fst]. rewrite Hw. destruct (is_dirty m1) eqn:Hd.
  - eexists. split; [reflexivity |]. simpl. split.
    + rewrite Hcur. unfold m0. destruct (manifest_file (world s)); reflexivity.
    + intros p Hp. exact (Hfr p Hp (Hok p Hp)).
  - destruct Hsh as [-> | Hsh]; [| congruence].
    destruct (opt_force opts || static_files_manifest_changed m0) eqn:Hfo.
    { pose proof (Hforce eq_refl Hne Hok). congruence. }
    apply orb_false_iff in Hfo. destruct Hfo as [_ Hch].
    rewrite Hmf. simpl. unfold m0 in Hch, Hfr. destruct (manifest_file (world s)) as [mf |].
    + exists mf. split; [reflexivity |]. split.
      * unfold static_files_manifest_changed in Hch. simpl in Hch.
        apply negb_false_iff, String.eqb_eq in Hch. exact Hch.
      * intros p Hp. exact (Hfr p Hp (Hok p Hp)).
    + discriminate.
Qed.

(* ================================================================== *)
(** * The claims *)

(** C1: with the manifest loaded, processing one file does exactly what
    the five-step classification procedure prescribes: under force the
    outcome is update or create (by presence of a record) and the file is
    rendered; without a record, create and render; with an equal mtime,
    skip with no render and an untouched manifest; with an equal content
    hash, skip with the record refreshed through [add] and no render;
    otherwise update and render. *)
Theorem output_markdown_file_follows_procedure (fs : FileSystem) (p : path)
    (s : St) (m : Manifest) :
  manifest (cmd s) = Some m ->
  output_markdown_file fs p s = procedure_effect fs p m s.
Proof. apply output_markdown_file_eq. Qed.

Lemma output_markdown_file_follows_procedure_witness :
  manifest (cmd sample_state) = Some sample_manifest /\
  output_markdown_file sample_fs "a.md" sample_state =
  procedure_effect sample_fs "a.md" sample_manifest sample_state.
Proof.
  split; [reflexivity |].
  apply (output_markdown_file_follows_procedure sample_fs "a.md" sample_state
           sample_manifest). reflexivity.
Defined.

(** C5: a file whose mtime changed but whose md5 equals the stored one
    (no force) is counted as skipped and its record is refreshed to the
    new mtime through [add]; nothing else changes: no render call, no
    generated file written, the world untouched. *)
Theorem hash_fallback_refreshes_record_only (fs : FileSystem) (p : path) (s : St)
    (m : Manifest) (ex : ManifestItem) :
  manifest (cmd s) = Some m -> is_force (cmd s) = false ->
  Manifest_get p m = Some ex -> mtime ex <> fs_mtime fs p -> md5 ex = fs_md5 fs p ->
  output_markdown_file fs p s =
    ({| cmd := {| is_force := false; threads_count := threads_count (cmd s);
                  manifest := Some (Manifest_add fs p m);
                  output_result_counts := bump Skip (output_result_counts (cmd s)) |};
        world := world s |}, Ok tt) /\
  Manifest_get p (Manifest_add fs p m) =
    Some {| mtime := fs_mtime fs p; md5 := fs_md5 fs p |} /\
  (forall q, q <> p -> Manifest_get q (Manifest_add fs p m) = Manifest_get q m).
Proof.
  intros Hm Hf Hg Ht Hh. split; [| split].
  - rewrite (output_markdown_file_eq fs p s m Hm). unfold procedure_effect, classify.
    rewrite Hf, Hg. apply Z.eqb_neq in Ht. rewrite Z.eqb_sym in Ht. simpl.
    rewrite Ht, Hh, String.eqb_refl.
    destruct s as [[f t mo cnt] w]. simpl in *. subst. reflexivity.
  - unfold Manifest_get, Manifest_add. simpl. by rewrite lookup_insert_eq.
  - intros q Hq. unfold Manifest_get, Manifest_add. simpl.
    by rewrite lookup_insert_ne.
Qed.

Lemma hash_fallback_refreshes_record_only_witness :
  manifest (cmd sample_state) = Some sample_manifest /\
  is_force (cmd sample_state) = false /\
  Manifest_get "a.md" sample_manifest = Some {| mtime := 3; md5 := "md5-a.md" |} /\
  output_markdown_file sample_fs "a.md" sample_state =
    ({| cmd := {| is_force := false; threads_count := threads_count (cmd sample_state);
                  manifest := Some (Manifest_add sample_fs "a.md" sample_manifest);
                  output_result_counts := bump Skip (output_result_counts (cmd sample_state)) |};
        world := world sample_state |}, Ok tt).
Proof.
  split; [reflexivity |]. split; [reflexivity |]. split; [reflexivity |].
  apply (hash_fallback_refreshes_record_only sample_fs "a.md" sample_state
           sample_manifest {| mtime := 3; md5 := "md5-a.md" |});
    [reflexivity | reflexivity | reflexivity | simpl; lia | reflexivity].
Defined.

(** C9: whatever the number of worker threads, every configuration the
    executor and the submitting loop can reach holds at most one task
    (queued, running or completed and not yet consumed), so at most one
    file is processed at a time; every reachable configuration can still
    run to the end of the loop; and a run that reaches the end leaves
    exactly the state, errors and [error_message] of the sequential loop
    over the discovered files in discovery order. *)
Theorem pool_processes_one_file_at_a_time (fs : FileSystem) (max_workers : nat)
    (files : list path) (s0 : St) (c : Pool.Config) :
  rtc (Pool.step fs max_workers) (Pool.init files s0) c ->
  Pool.in_flight c <= 1 /\
  (Pool.phase c = Pool.Exited ->
   build_loop fs files [] None s0 = (Pool.state c, Ok (Pool.errors c, Pool.error_message c))) /\
  (0 < max_workers ->
   exists c', rtc (Pool.step fs max_workers) c c' /\ Pool.phase c' = Pool.Exited).
Proof.
  intros Hr.
  set (final := build_loop fs files [] None s0).
  assert (Hi0 : PoolFacts.inv fs final (Pool.init files s0))
    by (unfold PoolFacts.inv; simpl; auto).
  pose proof (PoolFacts.inv_rtc fs max_workers final _ _ Hi0 Hr) as Hi.
  split; [| split].
  - by apply (PoolFacts.inv_in_flight fs final).
  - intros Hph. unfold PoolFacts.inv in Hi. rewrite Hph in Hi.
    destruct Hi as (_ & _ & _ & Hb). symmetry. exact Hb.
  - intros Hw. eapply PoolFacts.progress; eauto.
Qed.

Lemma pool_processes_one_file_at_a_time_witness :
  rtc (Pool.step sample_fs 4) (Pool.init ["a.md"; "b.md"] sample_state)
      (Pool.init ["a.md"; "b.md"] sample_state) /\
  Pool.in_flight (Pool.init ["a.md"; "b.md"] sample_state) <= 1.
Proof.
  split; [apply rtc_refl |].
  apply (pool_processes_one_file_at_a_time sample_fs 4 ["a.md"; "b.md"] sample_state).
  apply rtc_refl.
Defined.

(** C2: when the effective force flag is set, by [--force] or because the
    static assets changed, every discovered file is classified create or
    update and none is skipped, whatever the manifest records: the run ends
    with no skip, one create or update per discovered file, and every
    discovered file rendered, in order. *)
Theorem forced_build_never_skips (env : Env) (opts : Options) (s : St) :
  (opt_force opts = true \/
   static_files_manifest_changed
     (load_manifest (manifest_file (world s)) (env_static_state env)) = true) ->
  (0 < resolve_threads (opt_threads opts) (env_cpu_count env) (threads_count (cmd s)))%Z ->
  let s' := fst (run_handle env opts s) in
  skip_count (output_result_counts (cmd s')) = 0 /\
  create_count (output_result_counts (cmd s')) + update_count (output_result_counts (cmd s'))
    = length (env_files env) /\
  render_calls (world s') = render_calls (world s) ++ env_files env.
Proof.
  intros Hforce Hn. unfold run_handle. rewrite handle_eq. cbv zeta.
  set (s0 := prelude_state env opts s).
  assert (Hn0 : (threads_count (cmd s0) <=? 0)%Z = false) by (apply Z.leb_gt; exact Hn).
  rewrite Hn0.
  assert (Hf0 : is_force (cmd s0) = true).
  { simpl. destruct Hforce as [-> | ->]; [reflexivity | apply orb_true_r]. }
  assert (Hm0 : manifest (cmd s0) =
                Some (load_manifest (manifest_file (world s)) (env_static_state env)))
    by reflexivity.
  destruct (build_loop_ok (env_fs env) (env_files env) [] None s0)
    as (s1 & errs & em & Hl & He); [left; reflexivity |].
  pose proof (build_loop_forced (env_fs env) (env_files env) [] None s0 _ Hf0 Hm0) as Hb.
  pose proof (build_loop_core (env_fs env) (env_files env) [] None s0) as Hc.
  rewrite Hl in Hb, Hc |- *. cbv zeta in Hb. cbn [fst] in Hb, Hc.
  destruct (fold_task_core_some (env_fs env) (env_files env) (output_result_counts (cmd s0))
              (load_manifest (manifest_file (world s)) (env_static_state env))
              (is_force (cmd s0))) as (cnt & m & Hfold).
  unfold core in Hc. rewrite Hm0, Hfold in Hc. inversion Hc as [[Hcnt Hm Hfo]].
  destruct (epilogue_spec errs em s1 m Hm He) as (s2 & He2 & H1 & H2 & H3 & H4 & H5).
  rewrite He2. cbn [fst]. rewrite H1, H3.
  destruct Hb as (Hs & Hcu & Hr). rewrite Hs, Hcu, Hr. simpl. auto.
Qed.

Lemma forced_build_never_skips_witness :
  opt_force {| opt_force := true; opt_threads := Some "4" |} = true /\
  skip_count (output_result_counts (cmd (fst (run_handle
    (sample_env sample_fs ["a.md"; "b.md"]) {| opt_force := true; opt_threads := Some "4" |}
    sample_state)))) = 0.
Proof.
  split; [reflexivity |].
  apply (forced_build_never_skips (sample_env sample_fs ["a.md"; "b.md"])
           {| opt_force := true; opt_threads := Some "4" |} sample_state);
    [left; reflexivity | vm_compute; reflexivity].
Defined.

(** C8: the thread count does not change the final counters, in-memory
    manifest or manifest file ([--threads 1] and [--threads 8] end alike),
    and neither does the order in which the files are processed: any
    permutation of the discovered files ends with the same counters and
    manifest. *)
Theorem threads_and_order_do_not_change_results (env : Env) (force : bool) (s : St)
    (files' : list path) :
  Permutation (env_files env) files' ->
  counts_and_manifest (run_handle env {| opt_force := force; opt_threads := Some "1" |} s) =
  counts_and_manifest (run_handle env {| opt_force := force; opt_threads := Some "8" |} s) /\
  (forall threads : option string,
     counts_and_manifest (run_handle env {| opt_force := force; opt_threads := threads |} s) =
     counts_and_manifest
       (run_handle (with_files env files') {| opt_force := force; opt_threads := threads |} s)).
Proof.
  intros HP. unfold run_handle. split.
  - rewrite !handle_counts_and_manifest. reflexivity.
  - intros threads. rewrite !handle_counts_and_manifest.
    change (prelude_state (with_files env files') {| opt_force := force; opt_threads := threads |} s)
      with (prelude_state env {| opt_force := force; opt_threads := threads |} s).
    cbv zeta. destruct (_ <=? 0)%Z; [reflexivity |].
    cbn [env_fs env_files with_files].
    rewrite (fold_left_perm (task_core (env_fs env)) (task_core_comm (env_fs env))
               (env_files env) files' _ HP).
    reflexivity.
Qed.

Lemma threads_and_order_do_not_change_results_witness :
  Permutation ["a.md"; "b.md"; "c.md"] ["c.md"; "a.md"; "b.md"] /\
  counts_and_manifest (run_handle (sample_env sample_fs ["a.md"; "b.md"; "c.md"])
    {| opt_force := false; opt_threads := Some "1" |} sample_state) =
  counts_and_manifest (run_handle (sample_env sample_fs ["a.md"; "b.md"; "c.md"])
    {| opt_force := false; opt_threads := Some "8" |} sample_state).
Proof.
  assert (HP : Permutation ["a.md"; "b.md"; "c.md"] ["c.md"; "a.md"; "b.md"]).
  { apply Permutation_sym. apply (Permutation_cons_append ["a.md"; "b.md"] "c.md"). }
  split; [exact HP |].
  apply (threads_and_order_do_not_change_results
           (sample_env sample_fs ["a.md"; "b.md"; "c.md"]) false sample_state _ HP).
Defined.

(** C10: [handle] resets the force flag, the manifest and the three
    counters before anything else, so two command objects that differ in
    those attributes (as left by earlier builds) run a build identically;
    when the files are reached the counters are zero, the manifest is the
    one just loaded and the force flag comes from this run alone. *)
Theorem handle_resets_previous_build_state (env : Env) (opts : Options) (s1 s2 : St) :
  threads_count (cmd s1) = threads_count (cmd s2) -> world s1 = world s2 ->
  run_handle env opts s1 = run_handle env opts s2 /\
  output_result_counts (cmd (prelude_state env opts s1)) = zero_counts /\
  manifest (cmd (prelude_state env opts s1)) =
    Some (load_manifest (manifest_file (world s1)) (env_static_state env)) /\
  is_force (cmd (prelude_state env opts s1)) =
    opt_force opts ||
    static_files_manifest_changed
      (load_manifest (manifest_file (world s1)) (env_static_state env)).
Proof.
  intros Ht Hw. split; [| auto].
  unfold run_handle. rewrite !handle_eq.
  assert (Hp : prelude_state env opts s1 = prelude_state env opts s2)
    by (unfold prelude_state; rewrite Ht, Hw; reflexivity).
  rewrite Hp. reflexivity.
Qed.

(** A command object as a previous forced build with counters left over
    leaves it. *)
Definition used_state : St :=
  {| cmd := {| is_force := true; threads_count := 2; manifest := Some sample_manifest;
               output_result_counts := {| create_count := 7; update_count := 4;
                                          skip_count := 9 |} |};
     world := empty_world |}.

Lemma handle_resets_previous_build_state_witness :
  run_handle (sample_env sample_fs ["a.md"]) no_options used_state =
  run_handle (sample_env sample_fs ["a.md"]) no_options
    {| cmd := fresh_command; world := empty_world |}.
Proof.
  apply (handle_resets_previous_build_state (sample_env sample_fs ["a.md"]) no_options
           used_state {| cmd := fresh_command; world := empty_world |});
    reflexivity.
Defined.

(** C3 (code bug): three files, rendering [b.md] raises.  The build
    completes and collects exactly one error for [b.md], but the create
    counter was incremented before the render raised, so the counters
    report three outcomes (three creates) for two successful files. *)
Theorem render_failure_is_counted :
  let r := run_handle (sample_env sample_fs ["a.md"; "b.md"; "c.md"]) no_options fresh_state in
  snd r = Ok tt /\
  output_result_counts (cmd (fst r)) =
    {| create_count := 3; update_count := 0; skip_count := 0 |} /\
  outputs (world (fst r)) !! "b.md" = None /\
  spinner_log (world (fst r)) =
    [SpinSucceed "Load manifest"; SpinSucceed "Copy 0 static files";
     SpinSucceed "Create 3 HTML files, 0 unmodified, 0 updated";
     SpinFail "Rendering b.md failed. `TemplateSyntaxError: bad tag`";
     SpinSucceed "Update manifest"].
Proof. vm_compute. repeat split; reflexivity. Qed.

(** C4 (code bug): the same three files built twice with no change in
    between.  The second run skips [a.md] and [c.md] by mtime, leaves the
    manifest clean and does not write it, but counts [b.md], whose render
    raised in both runs, as a create again. *)
Theorem second_build_recounts_failed_file :
  let env := sample_env sample_fs ["a.md"; "b.md"; "c.md"] in
  let r1 := run_handle env no_options fresh_state in
  let r2 := run_handle env no_options (fst r1) in
  output_result_counts (cmd (fst r2)) =
    {| create_count := 1; update_count := 0; skip_count := 2 |} /\
  option_map is_dirty (manifest (cmd (fst r2))) = Some false /\
  manifest_writes (world (fst r2)) = manifest_writes (world (fst r1)).
Proof. vm_compute. repeat split; reflexivity. Qed.

(** C6 (as stated, refuted): on a fresh command object, [--threads abc]
    keeps the class default 2 instead of the computed default (7 with 16
    hardware threads); and without [--threads] on 2 hardware threads the
    count is 0, not floored at 1, and [ThreadPoolExecutor] raises. *)
Lemma invalid_threads_keep_previous_count :
  let r := run_handle (sample_env sample_fs_ok ["a.md"])
             {| opt_force := false; opt_threads := Some "abc" |} fresh_state in
  (threads_count (cmd (fst r)) = 2)%Z /\
  (threads_count (cmd (fst r)) <> claimed_default_threads 16)%Z /\
  let env2 := {| env_fs := sample_fs_ok; env_files := ["a.md"]; env_cpu_count := Some 2%Z;
                 env_static_state := "static-1";
                 env_collectstatic_stdout := "Copy 0 static files" |} in
  let r2 := run_handle env2 no_options fresh_state in
  (threads_count (cmd (fst r2)) = 0)%Z /\
  (threads_count (cmd (fst r2)) <> claimed_default_threads 2)%Z /\
  snd r2 = Raise (ValueError "max_workers must be greater than 0").
Proof. vm_compute. repeat split; try reflexivity; discriminate. Qed.

Lemma py_int_empty : py_int "" = None.
Proof. reflexivity. Qed.

(** C6 (amended): whatever the conversion [int()] of line 202 accepts
    (any [int_] that rejects the empty string, as Python's [int("")] does;
    [resolve_threads] takes [py_int]), a [--threads] value it parses to a
    positive integer is used as the thread count; a non-empty value it
    rejects raises nothing and keeps the command's previous thread count
    (the class default 2 on a fresh command object); without [--threads]
    (or with an empty value) and with at least 4 hardware threads, the
    count is [cpu_count() // 2 - 1], which is then at least 1. *)
Theorem resolve_threads_amended (int_ : string -> option Z) (cpu : option Z) (prev : Z) :
  int_ "" = None ->
  (forall (s : string) (n : Z), int_ s = Some n -> (0 < n)%Z ->
     resolve_threads_with int_ (Some s) cpu prev = n) /\
  (forall s : string, s <> "" -> int_ s = None ->
     resolve_threads_with int_ (Some s) cpu prev = prev) /\
  (forall c : Z, cpu = Some c -> (4 <= c)%Z ->
     resolve_threads_with int_ None cpu prev = (c / 2 - 1)%Z /\
     resolve_threads_with int_ (Some "") cpu prev = (c / 2 - 1)%Z /\
     (1 <= c / 2 - 1)%Z) /\
  threads_count fresh_command = 2%Z.
Proof.
  intros Hempty.
  split; [| split; [| split]].
  - intros s n Hp Hn. unfold resolve_threads_with.
    destruct (String.eqb_spec s "") as [-> | Hne].
    + rewrite Hempty in Hp. discriminate.
    + rewrite Hp. reflexivity.
  - intros s Hne Hp. unfold resolve_threads_with.
    apply String.eqb_neq in Hne. rewrite Hne, Hp. reflexivity.
  - intros c -> Hc. unfold resolve_threads_with. simpl.
    split; [reflexivity | split; [reflexivity |]].
    assert (2 <= c / 2)%Z by (apply Z.div_le_lower_bound; lia). lia.
  - reflexivity.
Qed.

Lemma resolve_threads_amended_witness :
  py_int "" = None /\
  ((forall (s : string) (n : Z), py_int s = Some n -> (0 < n)%Z ->
      resolve_threads_with py_int (Some s) (Some 16%Z) 2%Z = n) /\
   (forall s : string, s <> "" -> py_int s = None ->
      resolve_threads_with py_int (Some s) (Some 16%Z) 2%Z = 2%Z) /\
   (forall c : Z, Some 16%Z = Some c -> (4 <= c)%Z ->
      resolve_threads_with py_int None (Some 16%Z) 2%Z = (c / 2 - 1)%Z /\
      resolve_threads_with py_int (Some "") (Some 16%Z) 2%Z = (c / 2 - 1)%Z /\
      (1 <= c / 2 - 1)%Z) /\
   threads_count fresh_command = 2%Z).
Proof.
  split; [exact py_int_empty |].
  apply (resolve_threads_amended py_int (Some 16%Z) 2%Z). reflexivity.
Defined.

(** C7 (code bug): two files whose rendering both raise.  The report loop
    prints [error_message], the last message of the collection loop, once
    per collected error: [b.md]'s message twice and [a.md]'s never. *)
Theorem error_report_repeats_last_message :
  let r := run_handle (sample_env sample_fs_broken ["a.md"; "b.md"]) no_options fresh_state in
  spinner_log (world (fst r)) =
    [SpinSucceed "Load manifest"; SpinSucceed "Copy 0 static files";
     SpinSucceed "Create 2 HTML files, 0 unmodified, 0 updated";
     SpinFail "Rendering b.md failed. `KeyError: b.md`";
     SpinFail "Rendering b.md failed. `KeyError: b.md`"].
Proof. vm_compute. reflexivity. Qed.

(* ================================================================== *)
(** * Further properties of the code *)

Section DictMergeProps.
Context {L : Type} `{EqDecision L}.

(** X2: a key the destination does not have keeps its value in the
    result, whether or not the merge raises. *)
Theorem dict_merge_leaves_other_keys (source destination : @dict L) dos path k :
  k ∉ map fst destination ->
  dict_lookup k (fst (dict_merge source destination dos path)) = dict_lookup k source.
Proof. apply dict_merge_go_other. Qed.

(** X3: without [destination_overrides_source], a non-dict value of the
    source, at any nesting path, is still there in the result, even when the
    merge raises. *)
Theorem dict_merge_keeps_source_leaves (source destination : @dict L) path ks (v : L) :
  lookup_path ks (PDict source) = Some (PLeaf v) ->
  lookup_path ks (PDict (fst (dict_merge source destination false path))) = Some (PLeaf v).
Proof. apply dict_merge_go_keep_leaves. Qed.


(** X5: when the merge does not raise, the result's top-level keys are the
    source's keys in their order, followed by the destination's keys the
    source lacked, in the destination's order. *)
Theorem dict_merge_key_order (source destination : @dict L) dos path :
  NoDup (map fst destination) ->
  snd (dict_merge source destination dos path) = None ->
  map fst (fst (dict_merge source destination dos path)) =
  map fst source ++
    List.filter (fun k => negb (existsb (String.eqb k) (map fst source)))
      (map fst destination).
Proof. apply dict_merge_go_keys. Qed.

(** X7: merging a dict with unique keys into an empty source gives the
    destination's entries in order, without an error. *)
Theorem dict_merge_into_empty (destination : @dict L) dos path :
  NoDup (map fst destination) -> dict_merge [] destination dos path = (destination, None).
Proof. intros H. exact (dict_merge_go_fresh dos _ destination [] H). Qed.

End DictMergeProps.

Lemma dict_merge_leaves_other_keys_witness :
  ("title" ∉ map fst sample_clash) /\
  dict_lookup "title" (fst (dict_merge sample_source sample_clash false None)) =
  dict_lookup "title" sample_source.
Proof.
  split; [(apply (bool_decide_unpack _); vm_compute; exact I) |].
  apply dict_merge_leaves_other_keys. (apply (bool_decide_unpack _); vm_compute; exact I).
Defined.

Lemma dict_merge_keeps_source_leaves_witness :
  lookup_path ["output"; "path"] (PDict sample_source) = Some (PLeaf "out") /\
  lookup_path ["output"; "path"]
    (PDict (fst (dict_merge sample_source sample_clash false None))) = Some (PLeaf "out").
Proof. split; [reflexivity | apply dict_merge_keeps_source_leaves; reflexivity]. Defined.


Lemma dict_merge_key_order_witness :
  NoDup (map fst sample_extra) /\
  snd (dict_merge sample_source sample_extra false None) = None /\
  map fst (fst (dict_merge sample_source sample_extra false None)) =
  map fst sample_source ++
    List.filter (fun k => negb (existsb (String.eqb k) (map fst sample_source)))
      (map fst sample_extra).
Proof.
  split; [(apply (bool_decide_unpack _); vm_compute; exact I) |]. split; [vm_compute; reflexivity |].
  apply dict_merge_key_order; [(apply (bool_decide_unpack _); vm_compute; exact I) | vm_compute; reflexivity].
Defined.

Lemma dict_merge_into_empty_witness :
  NoDup (map fst sample_extra) /\
  dict_merge [] sample_extra false None = (sample_extra, None).
Proof.
  split; [(apply (bool_decide_unpack _); vm_compute; exact I) |].
  apply dict_merge_into_empty. (apply (bool_decide_unpack _); vm_compute; exact I).
Defined.

Section CollectstaticProps.
Open Scope string_scope.

(** X9: for [collectstatic] output framed by a leading newline and a
    trailing ".\n", as Django prints its summary, the spinner text is "Copy "
    followed by the summary with every " copied to '<static directory>'"
    removed. *)
Theorem collectstatic_text_strips_frame_and_destination dir body :
  call_collectstatic_text dir (nl ++ body ++ "." ++ nl) =
  "Copy " ++ str_replace body (" copied to '" ++ dir ++ "'") "".
Proof.
  unfold call_collectstatic_text.
  rewrite (string_app_assoc " copied to '" dir "'"), !str_replace_quote.
  set (P := (" copied to '" ++ dir) ++ "'").
  change (nl ++ body ++ "." ++ nl) with (String "010"%char (body ++ "." ++ nl)).
  cbn [replace_go].
  replace (starts_with P (String "010"%char (body ++ "." ++ nl))) with false
    by (unfold P; rewrite !append_cons; reflexivity).
  unfold P. rewrite replace_go_app_quote_free by (reflexivity || lia). fold P.
  set (r := replace_go P "" 0 body).
  f_equal. unfold py_slice. cbv zeta.
  change (String.length (String "010"%char (r ++ "." ++ nl)))
    with (S (String.length (r ++ "." ++ nl))).
  rewrite string_length_app. change (String.length ("." ++ nl)) with 2.
  change ((1 <? 0)%Z) with false. change ((-2 <? 0)%Z) with true. cbv iota.
  set (n := String.length r).
  replace (Z.to_nat (Z.min 1 (Z.of_nat (S (n + 2))))) with 1 by lia.
  replace (Z.to_nat (Z.max 0 (-2 + Z.of_nat (S (n + 2))) - Z.min 1 (Z.of_nat (S (n + 2)))))
    with n by lia.
  simpl substring. apply substring_app.
Qed.

(** X10: when the output, with the " copied to '...'" parts removed, has at
    most three characters (for instance, an empty output), the slice
    [[1:-2]] is empty and the text is just "Copy ". *)
Theorem collectstatic_text_of_short_output dir stdout :
  String.length (str_replace stdout (" copied to '" ++ dir ++ "'") "") <= 3 ->
  call_collectstatic_text dir stdout = "Copy ".
Proof.
  unfold call_collectstatic_text, py_slice. cbv zeta.
  set (r := str_replace stdout (" copied to '" ++ dir ++ "'") "").
  set (n := String.length r). intros Hn.
  change ((1 <? 0)%Z) with false. change ((-2 <? 0)%Z) with true. cbv iota.
  replace (Z.to_nat (Z.max 0 (-2 + Z.of_nat n) - Z.min 1 (Z.of_nat n))) with 0 by lia.
  rewrite substring_zero. apply append_nil_r.
Qed.

Lemma collectstatic_text_of_short_output_witness :
  String.length (str_replace "" (" copied to '" ++ "/out/static" ++ "'") "") <= 3 /\
  call_collectstatic_text "/out/static" "" = "Copy ".
Proof.
  split; [vm_compute; lia | apply collectstatic_text_of_short_output; vm_compute; lia].
Defined.

End CollectstaticProps.

(** The assignments of lines 136-154, when [COLTRANE] is the dict
    [c] and [OUTPUT] is absent or a dict. *)
Lemma set_output_directory_dict base path_div o st c out :
  o <> "" ->
  coltrane_dict st = Some c ->
  match dict_lookup "OUTPUT" c with
  | None => out = []
  | Some w => w = PDict out
  end ->
  let c2 := dict_setitem "OUTPUT" (PDict (dict_setitem "PATH" (PLeaf (SStr o)) out)) c in
  set_output_directory base path_div (Some o) st =
    match dict_lookup "DIRECTORY" out with
    | None =>
        ({| COLTRANE := Some (PDict c2);
            STATIC_ROOT := SPathLike (path_div (path_div base o) "static") |}, None)
    | Some v =>
        match fspath v with
        | Some d => ({| COLTRANE := Some (PDict c2);
                        STATIC_ROOT := SPathLike (path_div d "static") |}, None)
        | None => ({| COLTRANE := Some (PDict c2);
                      STATIC_ROOT := SPathLike (path_div (path_div base o) "static") |},
                   Some TypeError)
        end
    end /\
  lookup_path ["OUTPUT"; "DIRECTORY"] (PDict c) = dict_lookup "DIRECTORY" out /\
  lookup_path ["OUTPUT"; "PATH"] (PDict c2) = Some (PLeaf (SStr o)) /\
  (forall k, k <> "OUTPUT" -> dict_lookup k c2 = dict_lookup k c) /\
  (forall k, k <> "PATH" ->
     lookup_path ["OUTPUT"; k] (PDict c2) = lookup_path ["OUTPUT"; k] (PDict c)).
Proof.
  intros Ho Hc Hout c2.
  assert (Hk : forall k, k <> "OUTPUT" -> dict_lookup k c2 = dict_lookup k c)
    by (intros k Hk; unfold c2; rewrite dict_lookup_setitem;
        apply String.eqb_neq in Hk; rewrite Hk; reflexivity).
  assert (Hpath : lookup_path ["OUTPUT"; "PATH"] (PDict c2) = Some (PLeaf (SStr o)))
    by (unfold c2; simpl; rewrite dict_lookup_setitem; simpl;
        rewrite dict_lookup_setitem; reflexivity).
  assert (Hlp : forall k, lookup_path ["OUTPUT"; k] (PDict c) = dict_lookup k out).
  { intros k. simpl. destruct (dict_lookup "OUTPUT" c) as [w |].
    - subst w. destruct (dict_lookup k out); reflexivity.
    - subst out. reflexivity. }
  assert (Hp : forall k, k <> "PATH" ->
            lookup_path ["OUTPUT"; k] (PDict c2) = lookup_path ["OUTPUT"; k] (PDict c)).
  { intros k Hk2. rewrite Hlp. unfold c2. simpl. rewrite dict_lookup_setitem. simpl.
    rewrite dict_lookup_setitem. apply String.eqb_neq in Hk2. rewrite Hk2.
    destruct (dict_lookup k out); reflexivity. }
  split; [| split; [apply Hlp | auto]].
  unfold set_output_directory.
  destruct o as [| ch o']; [congruence |]. rewrite Hc. cbv iota.
  destruct (dict_lookup "OUTPUT" c) as [w |] eqn:Eo.
  - subst w. rewrite Eo. cbv zeta iota.
    rewrite dict_lookup_setitem. change ("DIRECTORY" =? "PATH") with false. cbv iota.
    reflexivity.
  - subst out. cbv zeta. rewrite dict_lookup_setitem, String.eqb_refl. cbv iota.
    rewrite dict_lookup_setitem. change ("DIRECTORY" =? "PATH") with false. cbv iota.
    unfold c2. rewrite dict_setitem_setitem. reflexivity.
Qed.

(** X11: with a non-empty [--output] value, when [COLTRANE] is absent or a
    dict, [COLTRANE["OUTPUT"]] absent or a dict, and
    [COLTRANE["OUTPUT"]["DIRECTORY"]] absent, a string or path-like, the
    method raises nothing, sets [COLTRANE["OUTPUT"]["PATH"]] to the value,
    keeps every other [COLTRANE] key and every other [OUTPUT] key, and sets
    [STATIC_ROOT] to [Path(DIRECTORY) / "static"] when [DIRECTORY] is present
    and to [get_base_directory() / value / "static"] otherwise. *)
Theorem set_output_directory_sets_path_and_static_root base path_div o st c :
  o <> "" ->
  coltrane_dict st = Some c ->
  (forall l, dict_lookup "OUTPUT" c <> Some (PLeaf l)) ->
  (forall v, lookup_path ["OUTPUT"; "DIRECTORY"] (PDict c) = Some v -> fspath v <> None) ->
  exists c',
    set_output_directory base path_div (Some o) st =
      ({| COLTRANE := Some (PDict c');
          STATIC_ROOT :=
            SPathLike (match lookup_path ["OUTPUT"; "DIRECTORY"] (PDict c) with
                       | Some v => match fspath v with
                                   | Some d => path_div d "static"
                                   | None => path_div (path_div base o) "static"
                                   end
                       | None => path_div (path_div base o) "static"
                       end) |}, None) /\
    lookup_path ["OUTPUT"; "PATH"] (PDict c') = Some (PLeaf (SStr o)) /\
    (forall k, k <> "OUTPUT" -> dict_lookup k c' = dict_lookup k c) /\
    (forall k, k <> "PATH" ->
       lookup_path ["OUTPUT"; k] (PDict c') = lookup_path ["OUTPUT"; k] (PDict c)).
Proof.
  intros Ho Hc Hleaf Hdir.
  assert (Hout : exists out, match dict_lookup "OUTPUT" c with
                             | None => out = []
                             | Some w => w = PDict out
                             end).
  { destruct (dict_lookup "OUTPUT" c) as [[l | out] |] eqn:Eo.
    - exfalso. exact (Hleaf l eq_refl).
    - exists out. reflexivity.
    - exists []. reflexivity. }
  destruct Hout as [out Hout].
  destruct (set_output_directory_dict base path_div o st c out Ho Hc Hout)
    as (Hrun & Hd & Hpath & Hk & Hp).
  eexists. split; [| exact (conj Hpath (conj Hk Hp))].
  rewrite Hrun, Hd. rewrite Hd in Hdir.
  destruct (dict_lookup "DIRECTORY" out) as [v |]; [| reflexivity].
  destruct (fspath v) as [d |] eqn:Ef; [reflexivity |].
  exfalso. exact (Hdir v eq_refl Ef).
Qed.

Lemma set_output_directory_sets_path_and_static_root_witness :
  "public" <> "" /\
  coltrane_dict sample_settings = Some (sample_coltrane (SStr "/srv/site")) /\
  (forall l, dict_lookup "OUTPUT" (sample_coltrane (SStr "/srv/site")) <> Some (PLeaf l)) /\
  (forall v, lookup_path ["OUTPUT"; "DIRECTORY"] (PDict (sample_coltrane (SStr "/srv/site")))
               = Some v -> fspath v <> None) /\
  exists c',
    set_output_directory "/base" sample_path_div (Some "public") sample_settings =
      ({| COLTRANE := Some (PDict c');
          STATIC_ROOT :=
            SPathLike (match lookup_path ["OUTPUT"; "DIRECTORY"]
                               (PDict (sample_coltrane (SStr "/srv/site"))) with
                       | Some v => match fspath v with
                                   | Some d => sample_path_div d "static"
                                   | None => sample_path_div (sample_path_div "/base" "public") "static"
                                   end
                       | None => sample_path_div (sample_path_div "/base" "public") "static"
                       end) |}, None) /\
    lookup_path ["OUTPUT"; "PATH"] (PDict c') = Some (PLeaf (SStr "public")) /\
    (forall k, k <> "OUTPUT" ->
       dict_lookup k c' = dict_lookup k (sample_coltrane (SStr "/srv/site"))) /\
    (forall k, k <> "PATH" ->
       lookup_path ["OUTPUT"; k] (PDict c') =
       lookup_path ["OUTPUT"; k] (PDict (sample_coltrane (SStr "/srv/site")))).
Proof.
  assert (H1 : "public" <> "") by discriminate.
  assert (H2 : coltrane_dict sample_settings = Some (sample_coltrane (SStr "/srv/site")))
    by reflexivity.
  assert (H3 : forall l, dict_lookup "OUTPUT" (sample_coltrane (SStr "/srv/site")) <> Some (PLeaf l))
    by (intros l; vm_compute; discriminate).
  assert (H4 : forall v, lookup_path ["OUTPUT"; "DIRECTORY"]
                           (PDict (sample_coltrane (SStr "/srv/site"))) = Some v ->
                         fspath v <> None)
    by (intros v Hv; vm_compute in Hv; injection Hv as <-; discriminate).
  split; [exact H1 |]. split; [exact H2 |]. split; [exact H3 |]. split; [exact H4 |].
  exact (set_output_directory_sets_path_and_static_root "/base" sample_path_div "public"
           sample_settings (sample_coltrane (SStr "/srv/site")) H1 H2 H3 H4).
Defined.

(** X17: with a non-empty [--output] value, when [COLTRANE] is absent or a
    dict and [COLTRANE["OUTPUT"]["DIRECTORY"]] is present but neither a
    string nor path-like (for instance [None]), the method raises
    [TypeError] after having set [COLTRANE["OUTPUT"]["PATH"]] to the value
    and [STATIC_ROOT] to [get_base_directory() / value / "static"]. *)
Theorem set_output_directory_rejects_non_path_directory base path_div o st c v :
  o <> "" ->
  coltrane_dict st = Some c ->
  lookup_path ["OUTPUT"; "DIRECTORY"] (PDict c) = Some v ->
  fspath v = None ->
  exists c',
    set_output_directory base path_div (Some o) st =
      ({| COLTRANE := Some (PDict c');
          STATIC_ROOT := SPathLike (path_div (path_div base o) "static") |},
       Some TypeError) /\
    lookup_path ["OUTPUT"; "PATH"] (PDict c') = Some (PLeaf (SStr o)).
Proof.
  intros Ho Hc Hv Hf.
  assert (Hout : exists out, match dict_lookup "OUTPUT" c with
                             | None => out = []
                             | Some w => w = PDict out
                             end).
  { simpl in Hv. destruct (dict_lookup "OUTPUT" c) as [[l | out] |];
      [discriminate | exists out; reflexivity | discriminate]. }
  destruct Hout as [out Hout].
  destruct (set_output_directory_dict base path_div o st c out Ho Hc Hout)
    as (Hrun & Hd & Hpath & _ & _).
  eexists. split; [| exact Hpath].
  rewrite Hrun. rewrite Hd in Hv. rewrite Hv, Hf. reflexivity.
Qed.

Lemma set_output_directory_rejects_non_path_directory_witness :
  "public" <> "" /\
  coltrane_dict sample_settings_none = Some (sample_coltrane (SOther "NoneType")) /\
  lookup_path ["OUTPUT"; "DIRECTORY"] (PDict (sample_coltrane (SOther "NoneType")))
    = Some (PLeaf (SOther "NoneType")) /\
  fspath (PLeaf (SOther "NoneType")) = None /\
  exists c',
    set_output_directory "/base" sample_path_div (Some "public") sample_settings_none =
      ({| COLTRANE := Some (PDict c');
          STATIC_ROOT := SPathLike (sample_path_div (sample_path_div "/base" "public") "static") |},
       Some TypeError) /\
    lookup_path ["OUTPUT"; "PATH"] (PDict c') = Some (PLeaf (SStr "public")).
Proof.
  split; [discriminate |]. split; [reflexivity |]. split; [reflexivity |].
  split; [reflexivity |].
  apply (set_output_directory_rejects_non_path_directory "/base" sample_path_div "public"
           sample_settings_none (sample_coltrane (SOther "NoneType")) (PLeaf (SOther "NoneType")));
    [discriminate | reflexivity ..].
Defined.

(** X13: when the resolved thread count is not positive, [handle] stops
    before the first file: nothing is rendered or written, and the manifest
    file is neither changed nor rewritten. *)
Theorem nonpositive_thread_count_aborts_before_rendering env opts s :
  (resolve_threads (opt_threads opts) (env_cpu_count env) (threads_count (cmd s)) <= 0)%Z ->
  let s' := fst (run_handle env opts s) in
  render_calls (world s') = render_calls (world s) /\
  outputs (world s') = outputs (world s) /\
  manifest_file (world s') = manifest_file (world s) /\
  manifest_writes (world s') = manifest_writes (world s).
Proof.
  intros Hn. unfold run_handle. rewrite handle_eq. cbv zeta.
  replace (threads_count (cmd (prelude_state env opts s)) <=? 0)%Z with true
    by (symmetry; apply Z.leb_le; exact Hn).
  simpl. auto.
Qed.

Lemma nonpositive_thread_count_aborts_before_rendering_witness :
  let env := sample_env sample_fs ["a.md"] in
  let opts := {| opt_force := false; opt_threads := Some "0" |} in
  (resolve_threads (opt_threads opts) (env_cpu_count env) (threads_count (cmd fresh_state))
     <= 0)%Z /\
  (let s' := fst (run_handle env opts fresh_state) in
   render_calls (world s') = render_calls (world fresh_state) /\
   outputs (world s') = outputs (world fresh_state) /\
   manifest_file (world s') = manifest_file (world fresh_state) /\
   manifest_writes (world s') = manifest_writes (world fresh_state)).
Proof.
  cbv zeta. split; [apply Z.leb_le; reflexivity |].
  apply nonpositive_thread_count_aborts_before_rendering. apply Z.leb_le. reflexivity.
Defined.



(** X15: after a build with a positive thread count, the in-memory manifest
    holds, for every discovered file that renders, a record with the file's
    current mtime; the records of paths that were not discovered are those
    of the loaded manifest file (none is removed). *)
Theorem build_records_every_rendered_file env opts s :
  (0 < resolve_threads (opt_threads opts) (env_cpu_count env) (threads_count (cmd s)))%Z ->
  exists m, manifest (cmd (fst (run_handle env opts s))) = Some m /\
    (forall p, In p (env_files env) -> is_ok (fs_render (env_fs env) p) = true ->
       exists r, m_data m !! p = Some r /\ mtime r = fs_mtime (env_fs env) p) /\
    (forall q, ~ In q (env_files env) ->
       m_data m !! q =
       m_data (load_manifest (manifest_file (world s)) (env_static_state env)) !! q).
Proof.
  intros Hn. pose proof (handle_counts_and_manifest env opts s) as Hc.
  cbv zeta in Hc.
  replace (threads_count (cmd (prelude_state env opts s)) <=? 0)%Z with false in Hc
    by (symmetry; apply Z.leb_gt; exact Hn).
  assert (Hs : core (prelude_state env opts s) =
            (zero_counts, Some (load_manifest (manifest_file (world s)) (env_static_state env)),
             is_force (cmd (prelude_state env opts s)))) by reflexivity.
  rewrite Hs in Hc.
  destruct (fold_left (task_core (env_fs env)) (env_files env) _) as [[cnt [m |]] f] eqn:Hf.
  2: { destruct (fold_task_core_some (env_fs env) (env_files env) zero_counts
          (load_manifest (manifest_file (world s)) (env_static_state env))
          (is_force (cmd (prelude_state env opts s)))) as (? & ? & E). congruence. }
  destruct (fold_task_core_records _ _ _ _ _ _ _ _ Hf) as (H1 & _ & H3).
  unfold counts_and_manifest in Hc. injection Hc as _ Hm _.
  exists m. unfold run_handle. split; [exact Hm |]. split; [exact H3 | exact H1].
Qed.

Lemma build_records_every_rendered_file_witness :
  let env := sample_env sample_fs ["a.md"; "b.md"; "c.md"] in
  (0 < resolve_threads (opt_threads no_options) (env_cpu_count env)
         (threads_count (cmd fresh_state)))%Z /\
  exists m, manifest (cmd (fst (run_handle env no_options fresh_state))) = Some m /\
    (forall p, In p (env_files env) -> is_ok (fs_render (env_fs env) p) = true ->
       exists r, m_data m !! p = Some r /\ mtime r = fs_mtime (env_fs env) p) /\
    (forall q, ~ In q (env_files env) ->
       m_data m !! q =
       m_data (load_manifest (manifest_file (world fresh_state)) (env_static_state env)) !! q).
Proof.
  cbv zeta. split; [apply Z.ltb_lt; reflexivity |].
  apply build_records_every_rendered_file. apply Z.ltb_lt. reflexivity.
Defined.

(** X16: when every discovered file renders, a second build over the same
    files without [--force] (both thread counts positive) renders and writes
    nothing, leaves the manifest file alone, and counts every file as
    unmodified. *)
Theorem unchanged_rebuild_renders_nothing env opts1 opts2 s :
  (forall p, In p (env_files env) -> is_ok (fs_render (env_fs env) p) = true) ->
  opt_force opts2 = false ->
  (0 < resolve_threads (opt_threads opts1) (env_cpu_count env) (threads_count (cmd s)))%Z ->
  (0 < resolve_threads (opt_threads opts2) (env_cpu_count env)
         (resolve_threads (opt_threads opts1) (env_cpu_count env) (threads_count (cmd s))))%Z ->
  let s1 := fst (run_handle env opts1 s) in
  let s2 := fst (run_handle env opts2 s1) in
  output_result_counts (cmd s2) =
    {| create_count := 0; update_count := 0; skip_count := length (env_files env) |} /\
  render_calls (world s2) = render_calls (world s1) /\
  outputs (world s2) = outputs (world s1) /\
  manifest_file (world s2) = manifest_file (world s1) /\
  manifest_writes (world s2) = manifest_writes (world s1).
Proof.
  intros Hok Hf2 Hn1 Hn2. cbv zeta.
  set (s1 := fst (run_handle env opts1 s)).
  assert (Ht1 : threads_count (cmd s1) =
                resolve_threads (opt_threads opts1) (env_cpu_count env) (threads_count (cmd s)))
    by (apply handle_threads; exact Hn1).
  rewrite <- Ht1 in Hn2.
  set (m0 := load_manifest (manifest_file (world s1)) (env_static_state env)).
  set (p0 := prelude_state env opts2 s1).
  assert (Hloop : build_loop (env_fs env) (env_files env) [] None p0 =
    (on_cmd (fun c =>
       let n := output_result_counts c in
       set_counts {| create_count := create_count n; update_count := update_count n;
                     skip_count := skip_count n + length (env_files env) |} c) p0,
     Ok ([], None))).
  { destruct (env_files env) as [| q rest] eqn:Hfiles.
    - reflexivity.
    - destruct (first_build_manifest_file env opts1 s Hn1) as (mf & Hmf & Hst & Hfr);
        [rewrite Hfiles; discriminate | rewrite Hfiles; exact Hok |].
      fold s1 in Hmf.
      apply (build_loop_fresh _ _ _ _ _ m0).
      + reflexivity.
      + unfold p0, prelude_state, m0. simpl. rewrite Hf2, Hmf. simpl.
        unfold static_files_manifest_changed. simpl. rewrite Hst, String.eqb_refl. reflexivity.
      + intros p Hp. rewrite <- Hfiles in Hp. destruct (Hfr p Hp) as (r & Hr & Hm).
        exists r. unfold m0. rewrite Hmf. simpl. auto. }
  unfold run_handle. rewrite handle_eq. cbv zeta. fold p0.
  replace (threads_count (cmd p0) <=? 0)%Z with false
    by (symmetry; apply Z.leb_gt; exact Hn2).
  rewrite Hloop.
  destruct (epilogue_spec [] None
              (on_cmd (fun c =>
                 let n := output_result_counts c in
                 set_counts {| create_count := create_count n; update_count := update_count n;
                               skip_count := skip_count n + length (env_files env) |} c) p0)
              m0 eq_refl (or_introl eq_refl)) as (s2 & -> & H1 & H2 & H3 & H4 & H5).
  cbn [fst]. rewrite H1, H2, H3, H4, H5. unfold m0. simpl.
  destruct (manifest_file (world s1)); simpl; auto.
Qed.

Lemma unchanged_rebuild_renders_nothing_witness :
  let env := sample_env sample_fs_ok ["a.md"; "c.md"] in
  (forall p, In p (env_files env) -> is_ok (fs_render (env_fs env) p) = true) /\
  opt_force no_options = false /\
  (0 < resolve_threads (opt_threads no_options) (env_cpu_count env)
         (threads_count (cmd fresh_state)))%Z /\
  (0 < resolve_threads (opt_threads no_options) (env_cpu_count env)
         (resolve_threads (opt_threads no_options) (env_cpu_count env)
            (threads_count (cmd fresh_state))))%Z /\
  (let s1 := fst (run_handle env no_options fresh_state) in
   let s2 := fst (run_handle env no_options s1) in
   output_result_counts (cmd s2) =
     {| create_count := 0; update_count := 0; skip_count := length (env_files env) |} /\
   render_calls (world s2) = render_calls (world s1) /\
   outputs (world s2) = outputs (world s1) /\
   manifest_file (world s2) = manifest_file (world s1) /\
   manifest_writes (world s2) = manifest_writes (world s1)).
Proof.
  cbv zeta. split; [intros p _; reflexivity |]. split; [reflexivity |].
  split; [apply Z.ltb_lt; reflexivity |]. split; [apply Z.ltb_lt; reflexivity |].
  apply unchanged_rebuild_renders_nothing;
    [intros p _; reflexivity | reflexivity | apply Z.ltb_lt; reflexivity ..].
Defined.
